(** * Meeting-notes bot: recording sessions, pipeline and storage

    A shallow embedding of the Python sources

      - [utils/audio_processor.py]  (class [AudioProcessor])
      - [utils/note_generator.py]   (class [NoteGenerator])
      - [database/storage.py]       (class [Database])
      - [main.py]                   (the bot commands and event handlers)

    Mutable program state (the two session dictionaries, the voice clients,
    the asyncio tasks, the temporary files, the SQLite table) is threaded
    explicitly through a state-and-exception monad.  The external engines
    (speech-to-text, the language model, faults of the storage layer) are
    oracles collected in one record, so every statement below holds for all
    of their behaviours. *)

From Stdlib Require Import ZArith String Ascii DecimalString Lia.
From stdpp Require Import base gmap strings list.

Open Scope Z_scope.

(** ** Python values and exceptions *)

Abbreviation bytes := (list Byte.byte).

(** [str(n)] for a Python [int]. *)
Definition str_of_Z (z : Z) : string := NilZero.string_of_int (Z.to_int z).

(** The exceptions the sources raise themselves ([ValueError]), the ones the
    interpreter raises on their behalf, and [ExternalError cls msg] for any
    exception coming out of a collaborator. *)
Inductive exn :=
  | ValueError (msg : string)
  | AttributeError (msg : string)
  | FileNotFoundError (msg : string)
  | IntegrityError (msg : string)
  | ExternalError (cls msg : string).

(** [str(e)] *)
Definition str_of_exn (e : exn) : string :=
  match e with
  | ValueError msg | AttributeError msg | FileNotFoundError msg
  | IntegrityError msg | ExternalError _ msg => msg
  end.

Inductive result (A : Type) :=
  | Ok (a : A)
  | Raise (e : exn).
Arguments Ok {A} a.
Arguments Raise {A} e.

(** ** [datetime] and the three [strftime] formats used by the sources *)

Record datetime := mk_datetime {
  year : Z; month : Z; day : Z;
  hour : Z; minute : Z; second : Z;
  microsecond : Z
}.

Definition is_leap (y : Z) : bool :=
  (y mod 4 =? 0) && (negb (y mod 100 =? 0) || (y mod 400 =? 0)).

Definition days_in_month (y m : Z) : Z :=
  if m =? 2 then (if is_leap y then 29 else 28)
  else if (m =? 4) || (m =? 6) || (m =? 9) || (m =? 11) then 30
  else 31.

(** The class invariant of [datetime.datetime] (MINYEAR = 1, MAXYEAR = 9999). *)
Definition valid_datetime (d : datetime) : bool :=
  (1 <=? year d) && (year d <=? 9999) &&
  (1 <=? month d) && (month d <=? 12) &&
  (1 <=? day d) && (day d <=? days_in_month (year d) (month d)) &&
  (0 <=? hour d) && (hour d <? 24) &&
  (0 <=? minute d) && (minute d <? 60) &&
  (0 <=? second d) && (second d <? 60) &&
  (0 <=? microsecond d) && (microsecond d <? 1000000).

(** [dt.replace(microsecond=0)]: the datetime at whole-second precision. *)
Definition truncate_seconds (d : datetime) : datetime :=
  mk_datetime (year d) (month d) (day d) (hour d) (minute d) (second d) 0.

Definition digit (d : Z) : ascii := ascii_of_nat (48 + Z.to_nat d).

(** [%m], [%d], [%H], [%M], [%S]: two digits, zero padded. *)
Definition pad2 (n : Z) : string :=
  String (digit (n / 10)) (String (digit (n mod 10)) EmptyString).

(** [%Y] as the C library of the host (glibc) writes it: the year as a
    decimal number, with no padding; a year below 1000 has fewer than four
    digits. *)
Definition fmt_year (y : Z) : string := str_of_Z y.

(** The four digits of a year from 1000 to 9999. *)
Definition four_digits (n : Z) : string := pad2 (n / 100) +:+ pad2 (n mod 100).

(** [strftime('%Y-%m-%d %H:%M:%S')], storage.py:63-64 *)
Definition strftime_sql (d : datetime) : string :=
  fmt_year (year d) +:+ "-" +:+ pad2 (month d) +:+ "-" +:+ pad2 (day d) +:+ " "
  +:+ pad2 (hour d) +:+ ":" +:+ pad2 (minute d) +:+ ":" +:+ pad2 (second d).

(** [strftime('%Y%m%d_%H%M%S')], audio_processor.py:96 *)
Definition strftime_file (d : datetime) : string :=
  fmt_year (year d) +:+ pad2 (month d) +:+ pad2 (day d) +:+ "_"
  +:+ pad2 (hour d) +:+ pad2 (minute d) +:+ pad2 (second d).

(** [strftime('%Y%m%d-%H%M%S')], main.py:71 *)
Definition strftime_name (d : datetime) : string :=
  fmt_year (year d) +:+ pad2 (month d) +:+ pad2 (day d) +:+ "-"
  +:+ pad2 (hour d) +:+ pad2 (minute d) +:+ pad2 (second d).

(** [datetime.strptime(s, '%Y-%m-%d %H:%M:%S')] on the fixed-width strings
    that [strftime_sql] and SQLite's [CURRENT_TIMESTAMP] write; [None]
    stands for the [ValueError] of a string that does not match or of
    fields that are no date. *)
Definition digit_val (c : ascii) : option Z :=
  let n := Z.of_nat (nat_of_ascii c) in
  if (48 <=? n) && (n <=? 57) then Some (n - 48) else None.

Fixpoint parse_digits (k : nat) (acc : Z) (s : string) : option (Z * string) :=
  match k with
  | O => Some (acc, s)
  | S k' =>
      match s with
      | String c s' =>
          match digit_val c with
          | Some v => parse_digits k' (acc * 10 + v) s'
          | None => None
          end
      | EmptyString => None
      end
  end.

Definition expect (c : ascii) (s : string) : option string :=
  match s with
  | String c' s' => if Ascii.eqb c c' then Some s' else None
  | EmptyString => None
  end.

Definition strptime_sql (s : string) : option datetime :=
  '(y, s) ← parse_digits 4 0 s;
  s ← expect "-" s;
  '(mo, s) ← parse_digits 2 0 s;
  s ← expect "-" s;
  '(d, s) ← parse_digits 2 0 s;
  s ← expect " " s;
  '(h, s) ← parse_digits 2 0 s;
  s ← expect ":" s;
  '(mi, s) ← parse_digits 2 0 s;
  s ← expect ":" s;
  '(se, s) ← parse_digits 2 0 s;
  match s with
  | EmptyString =>
      let dt := mk_datetime y mo d h mi se 0 in
      if valid_datetime dt then Some dt else None
  | _ => None
  end.

(** ** Program state *)

(** One entry of [AudioProcessor.recordings] (audio_processor.py:44-51).
    The key ['auto_stop_task'] is added after the entry is stored
    (audio_processor.py:60), hence the option. *)
Record recording_data := mk_recording_data {
  audio_buffer : list bytes;
  voice_client : nat;
  server_id : Z;
  channel_id : Z;
  start_time : datetime;
  cancelled : bool;
  auto_stop_task : option nat
}.

(** One entry of [active_recordings] (main.py:79-85). *)
Record session := mk_session {
  session_id : string;
  meeting_name : string;
  session_start_time : datetime;
  session_channel_id : Z;
  user_id : Z
}.

(** A voice client of the transport, as far as the sources use it:
    [listen(sink)], [is_listening()], [stop_listening()].  The sink is the
    closure built by [_create_audio_sink server_id]; it is identified by the
    server identifier it captured. *)
Record voice_client_state := mk_vc {
  listening : bool;
  sink : option Z
}.

(** An asyncio task running [_auto_stop_recording server_id max_seconds]:
    either suspended in [asyncio.sleep] or done ([task.done()]). *)
Inductive task_status := Sleeping | Done.

Record task := mk_task {
  task_server : Z;
  task_seconds : Z;
  task_status_of : task_status
}.

(** Files of the working directory: the WAV containers written through the
    [wave] module (channels, sample width, frame rate, payload) and the
    notes files of main.py:137-139. *)
Inductive file :=
  | WavFile (nchannels sampwidth framerate : Z) (frames : bytes)
  | TextFile (content : string).

(** Values bound to or read from SQLite. *)
Inductive py_value :=
  | PyNone
  | PyInt (z : Z)
  | PyStr (s : string).

(** A row of table [meetings] (storage.py:26-36), without its key [id].
    The five [TEXT] columns hold what SQLite stored; the three [TIMESTAMP]
    columns hold formatted timestamps, which are no numeric literals and
    therefore stay text under the column's NUMERIC affinity. *)
Record row := mk_row {
  row_server_id : py_value;
  row_channel_id : py_value;
  row_meeting_name : py_value;
  row_start_time : string;
  row_end_time : string;
  row_transcript : py_value;
  row_notes : py_value;
  row_created_at : string
}.

(** The table, keyed by its [INTEGER PRIMARY KEY], and the counter behind
    [AUTOINCREMENT] (the largest key ever handed out). *)
Record database := mk_database {
  rows : gmap Z row;
  last_rowid : Z
}.

(** What the bot sends to the channel ([ctx.send]). *)
Inductive message :=
  | NeedVoiceChannel             (* "I need to be in a voice channel first. Use !join" *)
  | AlreadyRecording             (* "A meeting is already being recorded in this server." *)
  | StartedRecording (name : string)
  | StopHint                     (* "Use `!stopmeeting` when you're done, or ..." *)
  | NoActiveMeeting              (* "No active meeting recording in this server." *)
  | ProcessingRecording
  | TranscribingAudio
  | GeneratingNotes
  | NotesText (text : string)
  | NotesFile (name : string)
  | RecordingProcessed (meeting_id : Z)
  | ErrorProcessing (text : string).   (* "Error processing meeting: {str(e)}" *)

(** The observable trace: replies and calls on the collaborators and on the
    file system, oldest first. *)
Inductive event :=
  | Sent (m : message)
  | Wrote (path : string)
  | Transcribed (path : string)
  | Summarized (transcript : string)
  | Saved (meeting_id : Z)
  | Removed (path : string).

Record world := mk_world {
  recordings : gmap Z recording_data;       (* audio_processor.recordings *)
  active_recordings : gmap Z session;       (* main.active_recordings *)
  voice_clients : gmap nat voice_client_state;
  tasks : list task;                        (* a task handle is its index *)
  files : gmap string file;
  db : database;
  llm_loaded : bool;                        (* note_generator.llm is not None *)
  clock : datetime;                         (* the reading of datetime.now() *)
  trace : list event
}.

Definition set_recordings (f : gmap Z recording_data -> gmap Z recording_data) (w : world) : world :=
  mk_world (f (recordings w)) (active_recordings w) (voice_clients w) (tasks w)
           (files w) (db w) (llm_loaded w) (clock w) (trace w).

Definition set_active_recordings (f : gmap Z session -> gmap Z session) (w : world) : world :=
  mk_world (recordings w) (f (active_recordings w)) (voice_clients w) (tasks w)
           (files w) (db w) (llm_loaded w) (clock w) (trace w).

Definition set_voice_clients (f : gmap nat voice_client_state -> gmap nat voice_client_state) (w : world) : world :=
  mk_world (recordings w) (active_recordings w) (f (voice_clients w)) (tasks w)
           (files w) (db w) (llm_loaded w) (clock w) (trace w).

Definition set_tasks (f : list task -> list task) (w : world) : world :=
  mk_world (recordings w) (active_recordings w) (voice_clients w) (f (tasks w))
           (files w) (db w) (llm_loaded w) (clock w) (trace w).

Definition set_files (f : gmap string file -> gmap string file) (w : world) : world :=
  mk_world (recordings w) (active_recordings w) (voice_clients w) (tasks w)
           (f (files w)) (db w) (llm_loaded w) (clock w) (trace w).

Definition set_db (f : database -> database) (w : world) : world :=
  mk_world (recordings w) (active_recordings w) (voice_clients w) (tasks w)
           (files w) (f (db w)) (llm_loaded w) (clock w) (trace w).

Definition set_llm_loaded (b : bool) (w : world) : world :=
  mk_world (recordings w) (active_recordings w) (voice_clients w) (tasks w)
           (files w) (db w) b (clock w) (trace w).

Definition set_clock (d : datetime) (w : world) : world :=
  mk_world (recordings w) (active_recordings w) (voice_clients w) (tasks w)
           (files w) (db w) (llm_loaded w) d (trace w).

Definition log (e : event) (w : world) : world :=
  mk_world (recordings w) (active_recordings w) (voice_clients w) (tasks w)
           (files w) (db w) (llm_loaded w) (clock w) (trace w ++ [e]).

(** The state of the process right after the module-level initialisation of
    main.py:31-37, at clock reading [now]. *)
Definition initial_world (now : datetime) : world :=
  mk_world ∅ ∅ ∅ [] ∅ (mk_database ∅ 0) false now [].

(** ** The monad of commands: state, and exceptions that keep the state *)

Definition M (A : Type) : Type := world -> result A * world.

Definition ret {A} (a : A) : M A := fun w => (Ok a, w).

Definition raise {A} (e : exn) : M A := fun w => (Raise e, w).

Definition bind {A B} (c : M A) (k : A -> M B) : M B :=
  fun w =>
    match c w with
    | (Ok a, w') => k a w'
    | (Raise e, w') => (Raise e, w')
    end.

Notation "x <- c ;; k" := (bind c (fun x => k))
  (at level 100, c at next level, right associativity).
Notation "c ;;; k" := (bind c (fun _ => k))
  (at level 100, right associativity).

Definition get : M world := fun w => (Ok w, w).

Definition modify (f : world -> world) : M unit := fun w => (Ok tt, f w).

(** [try: c  except Exception as e: h e] *)
Definition try_except {A} (c : M A) (h : exn -> M A) : M A :=
  fun w =>
    match c w with
    | (Ok a, w') => (Ok a, w')
    | (Raise e, w') => h e w'
    end.

Definition when (b : bool) (c : M unit) : M unit := if b then c else ret tt.

Definition send (m : message) : M unit := modify (log (Sent m)).

(** ** The voice transport and the asyncio scheduler, as the sources use them *)

Definition client (vc : nat) (w : world) : voice_client_state :=
  default (mk_vc false None) (voice_clients w !! vc).

Definition is_listening (vc : nat) (w : world) : bool := listening (client vc w).

(** [voice_client.listen(sink)] *)
Definition listen (vc : nat) (sink_server : Z) : M unit :=
  modify (set_voice_clients <[vc := mk_vc true (Some sink_server)]>).

(** [voice_client.stop_listening()] *)
Definition stop_listening (vc : nat) : M unit :=
  modify (set_voice_clients <[vc := mk_vc false None]>).

(** [asyncio.create_task(self._auto_stop_recording(server_id, max_seconds))] *)
Definition create_task (server : Z) (seconds : Z) : M nat :=
  fun w => (Ok (length (tasks w)), set_tasks (fun ts => ts ++ [mk_task server seconds Sleeping]) w).

(** [task.done()] *)
Definition task_done (t : nat) (w : world) : bool :=
  match tasks w !! t with
  | Some tk => match task_status_of tk with Done => true | Sleeping => false end
  | None => true
  end.

Definition finish (tk : task) : task := mk_task (task_server tk) (task_seconds tk) Done.

(** [task.cancel()]: [CancelledError] is thrown into the coroutine at its
    [await asyncio.sleep]; the handler of audio_processor.py:160-162
    swallows it, so the task ends without running the code after the sleep. *)
Definition task_cancel (t : nat) : M unit :=
  modify (set_tasks (alter finish t)).

(** ** utils/audio_processor.py *)

Module AudioProcessor.

(** The defaults of [__init__] (main.py:31 passes none). *)
Definition sample_rate : Z := 16000.
Definition max_recording_seconds : Z := 3600.
Definition temp_dir : string := "temp_audio".

Definition with_audio_buffer (b : list bytes) (rd : recording_data) : recording_data :=
  mk_recording_data b (voice_client rd) (server_id rd) (channel_id rd)
                    (start_time rd) (cancelled rd) (auto_stop_task rd).

Definition with_cancelled (c : bool) (rd : recording_data) : recording_data :=
  mk_recording_data (audio_buffer rd) (voice_client rd) (server_id rd) (channel_id rd)
                    (start_time rd) c (auto_stop_task rd).

Definition with_auto_stop_task (t : nat) (rd : recording_data) : recording_data :=
  mk_recording_data (audio_buffer rd) (voice_client rd) (server_id rd) (channel_id rd)
                    (start_time rd) (cancelled rd) (Some t).

(** The closure [audio_sink(data, user, audio_packet)] returned by
    [_create_audio_sink(server_id)], audio_processor.py:105-115.  It neither
    raises nor returns a value; [user] and [audio_packet] are unused. *)
Definition audio_sink (server_id : Z) (data : bytes) (w : world) : world :=
  match recordings w !! server_id with
  | Some rd =>
      if negb (cancelled rd)
      then set_recordings
             <[server_id := with_audio_buffer (audio_buffer rd ++ [data]) rd]> w
      else w
  | None => w
  end.

Definition _create_audio_sink (server_id : Z) : bytes -> world -> world :=
  audio_sink server_id.

(** [_save_audio_file(audio_buffer, file_path)], audio_processor.py:117-140.
    [b''.join(audio_buffer)] is [concat]; the container is stereo, 16 bit,
    at [sample_rate]. *)
Definition _save_audio_file (audio_buffer : list bytes) (file_path : string) : M string :=
  match audio_buffer with
  | [] => raise (ValueError "No audio data recorded")
  | _ =>
      let pcm_data := concat audio_buffer in
      modify (set_files <[file_path := WavFile 2 2 sample_rate pcm_data]>) ;;;
      modify (log (Wrote file_path)) ;;;
      ret file_path
  end.

(** [os.path.join(self.temp_dir,
      f"recording_{server_id}_{datetime.now().strftime('%Y%m%d_%H%M%S')}.wav")],
    audio_processor.py:96 *)
Definition recording_path (server_id : Z) (now : datetime) : string :=
  temp_dir +:+ "/recording_" +:+ str_of_Z server_id +:+ "_"
  +:+ strftime_file now +:+ ".wav".

(** [start_recording(voice_client, server_id, channel_id)],
    audio_processor.py:29-65.  [uuid4] is the value [uuid.uuid4()] draws. *)
Definition start_recording (uuid4 : string) (vc : nat) (server_id channel_id : Z) : M string :=
  let session_id := uuid4 in
  w <- get ;;
  let recording_data := mk_recording_data [] vc server_id channel_id (clock w) false None in
  modify (set_recordings <[server_id := recording_data]>) ;;;
  listen vc server_id ;;;
  t <- create_task server_id max_recording_seconds ;;
  modify (set_recordings (alter (with_auto_stop_task t) server_id)) ;;;
  ret session_id.

(** [stop_recording(server_id)], audio_processor.py:67-103 *)
Definition stop_recording (server_id : Z) : M string :=
  w <- get ;;
  match recordings w !! server_id with
  | None =>
      raise (ValueError ("No active recording for server " +:+ str_of_Z server_id))
  | Some recording_data =>
      when (is_listening (voice_client recording_data) w)
           (stop_listening (voice_client recording_data)) ;;;
      match auto_stop_task recording_data with
      | Some t => when (negb (task_done t w)) (task_cancel t)
      | None => ret tt
      end ;;;
      if cancelled recording_data then
        modify (set_recordings (delete server_id)) ;;;
        raise (ValueError ("Recording for server " +:+ str_of_Z server_id
                           +:+ " was cancelled"))
      else
        let file_path := recording_path server_id (clock w) in
        _save_audio_file (audio_buffer recording_data) file_path ;;;
        modify (set_recordings (delete server_id)) ;;;
        ret file_path
  end.

(** The code of [_auto_stop_recording(server_id, max_seconds)] after its
    [await asyncio.sleep(max_seconds)] has returned,
    audio_processor.py:146-158. *)
Definition _auto_stop_recording (server_id : Z) (max_seconds : Z) : M unit :=
  w <- get ;;
  match recordings w !! server_id with
  | Some rd =>
      (* Mark as cancelled if max time reached *)
      modify (set_recordings (alter (with_cancelled true) server_id)) ;;;
      (* Stop listening *)
      let voice_client := voice_client rd in
      when (is_listening voice_client w) (stop_listening voice_client) ;;;
      (* Clean up *)
      modify (set_recordings (delete server_id))
  | None => ret tt
  end.

End AudioProcessor.

(** The event loop resumes task [t] because its sleep has elapsed.  A task
    that is already done (it ran, or it was cancelled) is not resumed. *)
Definition timer_fires (t : nat) (w : world) : world :=
  match tasks w !! t with
  | Some tk =>
      match task_status_of tk with
      | Sleeping =>
          snd (AudioProcessor._auto_stop_recording (task_server tk) (task_seconds tk)
                 (set_tasks (alter finish t) w))
      | Done => w
      end
  | None => w
  end.

(** The transport hands one frame to the sink registered on voice client
    [vc]; a client that is not listening delivers nothing. *)
Definition frame_arrives (vc : nat) (data : bytes) (w : world) : world :=
  if is_listening vc w then
    match sink (client vc w) with
    | Some server_id => AudioProcessor._create_audio_sink server_id data w
    | None => w
    end
  else w.

(** ** The collaborators *)

(** What [llm.create_chat_completion] does: it raises, or it answers with a
    response that may lack the key ["choices"] and otherwise lists the
    message content of each choice. *)
Inductive completion :=
  | CompletionRaises (e : exn)
  | Completion (choices : option (list string)).

(** A segment of a transcription: [int(segment.start)] and [segment.text]. *)
Record segment := mk_segment {
  seg_start : Z;
  seg_text : string
}.

Record collaborators := mk_collaborators {
  (** [self.model.transcribe(audio_file, ...)] on the file found at the
      path, model loading included: the segments, or the exception that
      [_transcribe_audio] re-raises (transcription.py:97-99) *)
  whisper : string -> option file -> result (list segment);
  (** the constructor [Llama(..., n_gpu_layers=n)] fails with this exception *)
  llama_load : Z -> option exn;
  (** [create_chat_completion] on a prompt *)
  create_chat_completion : string -> completion;
  (** the SQLite layer fails every statement with this exception *)
  sqlite_fault : option exn;
  (** the UTC time of the instant at which the local clock of the host,
      [datetime.now()], reads the argument: what SQLite's
      [CURRENT_TIMESTAMP] is made of *)
  utc_now : datetime -> datetime
}.

Definition nl : string := String (ascii_of_nat 10) EmptyString.

(** ** [os.remove] and text files *)

Definition os_remove (path : string) : M unit :=
  w <- get ;;
  match files w !! path with
  | Some _ => modify (set_files (delete path)) ;;; modify (log (Removed path))
  | None => raise (FileNotFoundError path)
  end.

Definition write_text (path content : string) : M unit :=
  modify (set_files <[path := TextFile content]>) ;;; modify (log (Wrote path)).

(** ** utils/transcription.py *)

Module Transcriber.

(** [f"{n:02d}"] *)
Definition fmt02 (n : Z) : string :=
  if (0 <=? n) && (n <? 10) then "0" +:+ str_of_Z n else str_of_Z n.

(** [_format_timestamp(seconds)], transcription.py:101-105, on
    [int(seconds)] *)
Definition _format_timestamp (seconds : Z) : string :=
  let minutes := seconds / 60 in
  let seconds := seconds mod 60 in
  fmt02 minutes +:+ ":" +:+ fmt02 seconds.

(** [sep.join(parts)] *)
Fixpoint join (sep : string) (parts : list string) : string :=
  match parts with
  | [] => EmptyString
  | [p] => p
  | p :: rest => p +:+ sep +:+ join sep rest
  end.

(** The transcript that [_transcribe_audio] builds from the segments,
    transcription.py:86-95 *)
Definition full_transcript (segments : list segment) : string :=
  join nl (map (fun sg => "[" +:+ _format_timestamp (seg_start sg) +:+ "] " +:+ seg_text sg)
               segments).

(** [transcribe(audio_file)] with [_transcribe_audio],
    transcription.py:52-99 *)
Definition transcribe (E : collaborators) (audio_file : string) : M string :=
  w <- get ;;
  modify (log (Transcribed audio_file)) ;;;
  match whisper E audio_file (files w !! audio_file) with
  | Ok segments => ret (full_transcript segments)
  | Raise e => raise e
  end.

End Transcriber.

(** ** utils/note_generator.py *)

Module NoteGenerator.

(** [str.strip()] on ASCII text *)
Definition is_space (c : ascii) : bool :=
  let n := nat_of_ascii c in
  ((9 <=? n) && (n <=? 13) || (28 <=? n) && (n <=? 32))%nat.

Fixpoint lstrip (s : string) : string :=
  match s with
  | String c s' => if is_space c then lstrip s' else s
  | EmptyString => EmptyString
  end.

Definition strip (s : string) : string :=
  String.rev (lstrip (String.rev (lstrip s))).

(** The f-string of note_generator.py:80-95 *)
Definition prompt (transcript : string) : string :=
  "[INST] <<SYS>>" +:+ nl
  +:+ "You are an AI assistant specialized in summarizing meeting transcripts." +:+ nl
  +:+ "Your task is to analyze the provided meeting transcript and generate comprehensive meeting notes." +:+ nl
  +:+ "Focus on extracting:" +:+ nl
  +:+ "1. Key decisions made during the meeting (in bullet points)" +:+ nl
  +:+ "2. Action items with assignees and deadlines if mentioned (in bullet points)" +:+ nl
  +:+ "3. Follow-up tasks or pending items that need attention" +:+ nl
  +:+ "Be concise, clear, and organized. Ignore small talk and focus on substantive discussion." +:+ nl
  +:+ "<</SYS>>" +:+ nl +:+ nl
  +:+ "Here is the meeting transcript:" +:+ nl +:+ nl
  +:+ transcript +:+ nl +:+ nl
  +:+ "Please generate structured meeting notes for this transcript including key decisions, action items, and follow-up tasks. [/INST]" +:+ nl.

(** [_process_transcript(transcript)], note_generator.py:75-119.  Both the
    [else] branch and the [except] handler return a text. *)
Definition _process_transcript (E : collaborators) (transcript : string) : string :=
  match create_chat_completion E (prompt transcript) with
  | Completion (Some (content :: _)) => strip content
  | Completion _ => "Error: Failed to generate meeting notes."
  | CompletionRaises e => "Error generating meeting notes: " +:+ str_of_exn e
  end.

(** [_initialize_model()], note_generator.py:32-54: GPU first, CPU as the
    fallback; a failure of the fallback propagates. *)
Definition _initialize_model (E : collaborators) : M unit :=
  w <- get ;;
  if llm_loaded w then ret tt
  else
    match llama_load E 1 with
    | None => modify (set_llm_loaded true)
    | Some _ =>
        match llama_load E 0 with
        | None => modify (set_llm_loaded true)
        | Some e => raise e
        end
    end.

(** [generate_notes(transcript)], note_generator.py:56-73 *)
Definition generate_notes (E : collaborators) (transcript : string) : M string :=
  w <- get ;;
  when (negb (llm_loaded w)) (_initialize_model E) ;;;
  modify (log (Summarized transcript)) ;;;
  ret (_process_transcript E transcript).

End NoteGenerator.

(** ** database/storage.py *)

Module Database.

(** The dictionary returned by [get_meeting], storage.py:91-101. *)
Record meeting := mk_meeting {
  id : Z;
  m_server_id : py_value;
  m_channel_id : py_value;
  m_meeting_name : py_value;
  m_start_time : datetime;
  m_end_time : datetime;
  m_transcript : py_value;
  m_notes : py_value;
  m_created_at : datetime
}.

(** A column declared [TEXT] has TEXT affinity: an integer bound to it is
    converted to its decimal text before it is stored; text and NULL are
    stored as they are. *)
Definition text_affinity (v : py_value) : py_value :=
  match v with
  | PyInt z => PyStr (str_of_Z z)
  | _ => v
  end.

Definition is_none (v : py_value) : bool :=
  match v with PyNone => true | _ => false end.

(** The threads of the process: the one that runs the event loop with its
    coroutines, and the one of the default executor, to which
    [run_in_executor] hands [_execute_sync]. *)
Inductive thread := EventLoop | Executor.

Definition same_thread (a b : thread) : bool :=
  match a, b with
  | EventLoop, EventLoop | Executor, Executor => true
  | _, _ => false
  end.

(** The two statements that [save_meeting] and [get_meeting] send through
    [_execute], with their parameters. *)
Inductive statement :=
  | InsertMeeting (server_id channel_id meeting_name : py_value)
                  (start_time end_time : string) (transcript notes : py_value)
  | SelectMeeting (meeting_id : Z).

(** A cursor after [cursor.execute]: the thread in which its connection was
    opened, the rows of its result with their [id], and [lastrowid] (read
    only after an [INSERT]). *)
Record cursor := mk_cursor {
  connection_thread : thread;
  result_rows : list (Z * row);
  lastrowid : Z
}.

(** [_execute_sync(query, parameters)], storage.py:161-179.  It runs in the
    executor's thread; the connection is opened there at the first call
    ([sqlite3.connect] with its default [check_same_thread]), so every
    cursor belongs to that thread.  An [INSERT] takes the next
    [AUTOINCREMENT] key and [created_at] takes its default,
    [CURRENT_TIMESTAMP]. *)
Definition _execute_sync (E : collaborators) (query : statement) : M cursor :=
  match sqlite_fault E with
  | Some e => raise e
  | None =>
      w <- get ;;
      match query with
      | InsertMeeting server_id channel_id meeting_name start_time end_time
                      transcript notes =>
          if is_none server_id || is_none channel_id || is_none meeting_name
          then raise (IntegrityError "NOT NULL constraint failed")
          else
            let meeting_id := last_rowid (db w) + 1 in
            let r := mk_row (text_affinity server_id) (text_affinity channel_id)
                            (text_affinity meeting_name) start_time end_time
                            (text_affinity transcript) (text_affinity notes)
                            (strftime_sql (utc_now E (clock w))) in
            modify (set_db (fun d => mk_database (<[meeting_id := r]> (rows d)) meeting_id)) ;;;
            ret (mk_cursor Executor [] meeting_id)
      | SelectMeeting meeting_id =>
          ret (mk_cursor Executor
                 (match rows (db w) !! meeting_id with
                  | Some r => [(meeting_id, r)]
                  | None => []
                  end)
                 (last_rowid (db w)))
      end
  end.

(** [_execute(query, parameters)], storage.py:155-159 *)
Definition _execute (E : collaborators) (query : statement) : M cursor :=
  _execute_sync E query.

(** [cursor.fetchone()] called in thread [current]: sqlite3 refuses the
    call in another thread than the one of the connection. *)
Definition fetchone (current : thread) (c : cursor) : M (option (Z * row)) :=
  if same_thread current (connection_thread c)
  then ret (head (result_rows c))
  else raise (ExternalError "sqlite3.ProgrammingError"
                "SQLite objects created in a thread can only be used in that same thread.").

(** [save_meeting(...)], storage.py:40-74: the [INSERT] through [_execute],
    then [cursor.lastrowid], an attribute that is read without a check of
    the thread. *)
Definition save_meeting (E : collaborators)
    (server_id channel_id meeting_name : py_value)
    (start_time end_time : datetime) (transcript notes : py_value) : M Z :=
  let start_time_str := strftime_sql start_time in
  let end_time_str := strftime_sql end_time in
  cursor <- _execute E (InsertMeeting server_id channel_id meeting_name
                                      start_time_str end_time_str transcript notes) ;;
  let meeting_id := lastrowid cursor in
  modify (log (Saved meeting_id)) ;;;
  ret meeting_id.

Definition strptime (s : string) : M datetime :=
  match strptime_sql s with
  | Some d => ret d
  | None => raise (ValueError ("time data does not match format: " +:+ s))
  end.

(** The dictionary that [get_meeting] builds from a fetched row,
    storage.py:90-101 *)
Definition meeting_of_row (meeting_id : Z) (row : row) : M meeting :=
  start_time <- strptime (row_start_time row) ;;
  end_time <- strptime (row_end_time row) ;;
  created_at <- strptime (row_created_at row) ;;
  ret (mk_meeting meeting_id (row_server_id row) (row_channel_id row)
                  (row_meeting_name row) start_time end_time
                  (row_transcript row) (row_notes row) created_at).

(** [get_meeting(meeting_id)], storage.py:76-103.  The coroutine runs in
    the thread of the event loop, and so does its [cursor.fetchone()]. *)
Definition get_meeting (E : collaborators) (meeting_id : Z) : M (option meeting) :=
  cursor <- _execute E (SelectMeeting meeting_id) ;;
  row <- fetchone EventLoop cursor ;;
  match row with
  | Some (meeting_id, row) =>
      meeting <- meeting_of_row meeting_id row ;;
      ret (Some meeting)
  | None => ret None
  end.

End Database.

(** ** main.py *)

Module Main.

(** What the handlers read from the command context. *)
Record context := mk_context {
  guild_id : Z;                     (* ctx.guild.id *)
  ctx_voice_client : option nat;    (* ctx.voice_client *)
  author_id : Z;                    (* ctx.author.id *)
  author_voice : option Z           (* ctx.author.voice, then .channel.id *)
}.

Definition nonempty (s : string) : bool :=
  match s with EmptyString => false | _ => true end.

(** main.py:70-71: a missing or empty name is replaced by a label made of
    the current time. *)
Definition name_or_default (meeting_name : option string) (now : datetime) : string :=
  match meeting_name with
  | Some n => if nonempty n then n else "Meeting-" +:+ strftime_name now
  | None => "Meeting-" +:+ strftime_name now
  end.

(** [start_meeting(ctx, meeting_name=None)], main.py:59-88 *)
Definition start_meeting (uuid4 : string) (ctx : context) (meeting_name : option string) : M unit :=
  match ctx_voice_client ctx with
  | None => send NeedVoiceChannel
  | Some voice_client =>
      w <- get ;;
      match active_recordings w !! guild_id ctx with
      | Some _ => send AlreadyRecording
      | None =>
          let meeting_name := name_or_default meeting_name (clock w) in
          match author_voice ctx with
          | None => raise (AttributeError "'NoneType' object has no attribute 'channel'")
          | Some channel_id =>
              let server_id := guild_id ctx in
              session_id <- AudioProcessor.start_recording uuid4 voice_client server_id channel_id ;;
              modify (set_active_recordings
                        <[server_id := mk_session session_id meeting_name (clock w)
                                                  channel_id (author_id ctx)]>) ;;;
              send (StartedRecording meeting_name) ;;;
              send StopHint
          end
      end
  end.

(** The body of the [try] of [stop_meeting], main.py:107-144. *)
Definition process_recording (E : collaborators) (server_id : Z) (session : session)
    (audio_file : string) : M unit :=
  send TranscribingAudio ;;;
  transcription <- Transcriber.transcribe E audio_file ;;
  send GeneratingNotes ;;;
  notes <- NoteGenerator.generate_notes E transcription ;;
  w <- get ;;
  meeting_id <- Database.save_meeting E (PyInt server_id)
                  (PyInt (session_channel_id session)) (PyStr (meeting_name session))
                  (session_start_time session) (clock w)
                  (PyStr transcription) (PyStr notes) ;;
  os_remove audio_file ;;;
  let formatted_notes :=
    "# Meeting Notes: " +:+ meeting_name session +:+ nl +:+ nl +:+ notes in
  (if (String.length formatted_notes <=? 2000)%nat
   then send (NotesText formatted_notes)
   else
     let notes_file := "notes_" +:+ str_of_Z meeting_id +:+ ".md" in
     write_text notes_file formatted_notes ;;;
     send (NotesFile notes_file) ;;;
     os_remove notes_file) ;;;
  send (RecordingProcessed meeting_id).

(** [stop_meeting(ctx)], main.py:90-151 *)
Definition stop_meeting (E : collaborators) (ctx : context) : M unit :=
  w <- get ;;
  match active_recordings w !! guild_id ctx with
  | None => send NoActiveMeeting
  | Some session =>
      let server_id := guild_id ctx in
      send ProcessingRecording ;;;
      audio_file <- AudioProcessor.stop_recording server_id ;;
      try_except (process_recording E server_id session audio_file)
                 (fun e => send (ErrorProcessing (str_of_exn e))) ;;;
      modify (set_active_recordings (delete server_id))
  end.

(** [on_voice_state_update(member, before, after)], main.py:205-215.
    [before] and [after] carry the guild of the channel, if there is a
    channel. *)
Definition on_voice_state_update (member_is_bot : bool) (before after : option Z) : M unit :=
  match member_is_bot, before, after with
  | true, Some server_id, None =>
      w <- get ;;
      match active_recordings w !! server_id with
      | Some _ =>
          AudioProcessor.stop_recording server_id ;;;
          modify (set_active_recordings (delete server_id))
      | None => ret tt
      end
  | _, _, _ => ret tt
  end.

End Main.

(** ** Runs of the system *)

(** The sink of server [server_id] is called once per frame, in order. *)
Definition deliver (server_id : Z) (frames : list bytes) (w : world) : world :=
  foldl (fun w data => AudioProcessor._create_audio_sink server_id data w) w frames.

(** What can happen to the process, one atomic step each. *)
Inductive action :=
  | StartMeeting (uuid4 : string) (ctx : Main.context) (meeting_name : option string)
  | StopMeeting (ctx : Main.context)
  | SinkCalled (server_id : Z) (data : bytes)
  | FrameArrives (vc : nat) (data : bytes)
  | TimerFires (t : nat)
  | VoiceStateUpdate (member_is_bot : bool) (before after : option Z)
  | ClockTicks (now : datetime).

Definition step (E : collaborators) (a : action) (w : world) : world :=
  match a with
  | StartMeeting uuid4 ctx name => snd (Main.start_meeting uuid4 ctx name w)
  | StopMeeting ctx => snd (Main.stop_meeting E ctx w)
  | SinkCalled server_id data => AudioProcessor._create_audio_sink server_id data w
  | FrameArrives vc data => frame_arrives vc data w
  | TimerFires t => timer_fires t w
  | VoiceStateUpdate b before after => snd (Main.on_voice_state_update b before after w)
  | ClockTicks now => set_clock now w
  end.

Definition run (E : collaborators) (actions : list action) (w : world) : world :=
  foldl (fun w a => step E a w) w actions.

(** Every server that the audio processor records is known to the bot. *)
Definition registries_agree (w : world) : Prop :=
  forall server_id, recordings w !! server_id <> None ->
                    active_recordings w !! server_id <> None.

(** How one step may change the two tables of sessions. *)
Inductive registry_effect (w w' : world) : Prop :=
  | effect_none :
      recordings w' = recordings w ->
      active_recordings w' = active_recordings w ->
      registry_effect w w'
  | effect_started (sid : Z) (rd : recording_data) (s : session) :
      recordings w' = <[sid := rd]> (recordings w) ->
      active_recordings w' = <[sid := s]> (active_recordings w) ->
      registry_effect w w'
  | effect_appended (sid : Z) (rd rd' : recording_data) :
      recordings w !! sid = Some rd ->
      recordings w' = <[sid := rd']> (recordings w) ->
      active_recordings w' = active_recordings w ->
      registry_effect w w'
  | effect_dropped (sid : Z) :
      recordings w' = delete sid (recordings w) ->
      active_recordings w' = active_recordings w ->
      registry_effect w w'
  | effect_stopped (sid : Z) :
      recordings w' = delete sid (recordings w) ->
      active_recordings w' = delete sid (active_recordings w) ->
      registry_effect w w'.

(** A command that leaves both tables of sessions alone, whatever it
    returns or raises. *)
Definition keeps_registries {A} (c : M A) : Prop :=
  forall w, recordings (snd (c w)) = recordings w /\
            active_recordings (snd (c w)) = active_recordings w.

(** The state in which [stop_recording] leaves the voice client and the
    auto-stop task of an entry (audio_processor.py:82-88). *)
Definition silence (rd : recording_data) (w : world) : world :=
  let w1 := if is_listening (voice_client rd) w
            then set_voice_clients <[voice_client rd := mk_vc false None]> w
            else w in
  match auto_stop_task rd with
  | Some t => if negb (task_done t w) then set_tasks (alter finish t) w1 else w1
  | None => w1
  end.

(** The sink of [server_id] drops what it is given: the server has no entry
    in [recordings], or its entry is marked cancelled. *)
Definition recording_ended (server_id : Z) (w : world) : Prop :=
  match recordings w !! server_id with
  | Some rd => cancelled rd = true
  | None => True
  end.

(** The row that [stop_meeting] saves for session [s] of server [sid] when
    the transcript is [transcript] and the clock reads [now] (main.py:116-124
    through storage.py:56-69). *)
Definition saved_row (E : collaborators) (sid : Z) (s : session)
    (transcript : string) (now : datetime) : row :=
  mk_row (PyStr (str_of_Z sid)) (PyStr (str_of_Z (session_channel_id s)))
         (PyStr (meeting_name s)) (strftime_sql (session_start_time s)) (strftime_sql now)
         (PyStr transcript) (PyStr (NoteGenerator._process_transcript E transcript))
         (strftime_sql (utc_now E now)).

(** [formatted_notes], main.py:130 *)
Definition formatted_notes (E : collaborators) (s : session) (transcript : string) : string :=
  "# Meeting Notes: " +:+ meeting_name s +:+ nl +:+ nl
  +:+ NoteGenerator._process_transcript E transcript.

(** The events of main.py:133-142: the notes go out as a message, or as a
    file that is written, sent and removed. *)
Definition notes_delivery (E : collaborators) (s : session) (transcript : string)
    (meeting_id : Z) : list event :=
  if (String.length (formatted_notes E s transcript) <=? 2000)%nat
  then [Sent (NotesText (formatted_notes E s transcript))]
  else [Wrote ("notes_" +:+ str_of_Z meeting_id +:+ ".md");
        Sent (NotesFile ("notes_" +:+ str_of_Z meeting_id +:+ ".md"));
        Removed ("notes_" +:+ str_of_Z meeting_id +:+ ".md")].

(** The events that a call on the pipeline leaves in the trace. *)
Definition pipeline_event (e : event) : bool :=
  match e with
  | Transcribed _ | Summarized _ | Saved _ => true
  | _ => false
  end.

(** [os.remove(path)] calls in a trace. *)
Definition removes (path : string) (e : event) : bool :=
  match e with
  | Removed p => String.eqb p path
  | _ => false
  end.

Definition count_removed (path : string) (tr : list event) : nat :=
  length (List.filter (removes path) tr).

(** The text that [_process_transcript] returns in place of notes when the
    completion failed: the call raised (note_generator.py:117-119) or the
    response holds no choice (note_generator.py:113-115). *)
Definition failure_text (c : completion) : option string :=
  match c with
  | CompletionRaises e => Some ("Error generating meeting notes: " +:+ str_of_exn e)
  | Completion (Some (_ :: _)) => None
  | Completion _ => Some "Error: Failed to generate meeting notes."
  end.

(** The replies that report a failed run. *)
Definition is_error_reply (e : event) : bool :=
  match e with
  | Sent (ErrorProcessing _) => true
  | _ => false
  end.







(** A command that leaves the component [f] of the state alone, whatever it
    returns or raises. *)
Definition preserves {X A} (f : world -> X) (c : M A) : Prop :=
  forall w, f (snd (c w)) = f w.

(** ** Concrete runs *)

Module Scenario.

Definition now : datetime := mk_datetime 2024 5 17 9 30 15 123456.
Definition later : datetime := mk_datetime 2024 5 17 10 31 16 654321.

Definition notes_text : string := "Decisions: none. Actions: none.".

(** Engines that work. *)
Definition engines : collaborators :=
  mk_collaborators (fun _ _ => Ok [mk_segment 0 "hello world"]) (fun _ => None)
                   (fun _ => Completion (Some [notes_text])) None (fun now => now).

(** The language model cannot be loaded, neither on the GPU nor on the CPU. *)
Definition unloadable_llm : collaborators :=
  mk_collaborators (fun _ _ => Ok [mk_segment 0 "hello world"])
                   (fun _ => Some (ExternalError "ValueError" "Failed to load model from file"))
                   (fun _ => Completion (Some [notes_text])) None (fun now => now).

(** The language model answers with a response that holds no choice. *)
Definition silent_llm : collaborators :=
  mk_collaborators (fun _ _ => Ok [mk_segment 0 "hello world"]) (fun _ => None)
                   (fun _ => Completion (Some [])) None (fun now => now).

(** The language model fails while it completes the prompt. *)
Definition failing_llm : collaborators :=
  mk_collaborators (fun _ _ => Ok [mk_segment 0 "hello world"]) (fun _ => None)
                   (fun _ => CompletionRaises (ExternalError "RuntimeError" "llama_decode failed"))
                   None (fun now => now).

(** The speech-to-text engine fails. *)
Definition failing_whisper : collaborators :=
  mk_collaborators (fun _ _ => Raise (ExternalError "RuntimeError" "could not decode audio"))
                   (fun _ => None)
                   (fun _ => Completion (Some [notes_text])) None (fun now => now).

(** A member of guild [guild], in voice channel 9, the bot connected through
    voice client 0. *)
Definition member (guild : Z) : Main.context :=
  Main.mk_context guild (Some 0%nat) 77 (Some 9).

(** The same member when the bot has joined no voice channel. *)
Definition member_without_bot (guild : Z) : Main.context :=
  Main.mk_context guild None 77 (Some 9).

Definition frame1 : bytes := [Byte.x01; Byte.x02; Byte.x03; Byte.x04].
Definition frame2 : bytes := [Byte.x05; Byte.x06; Byte.x07; Byte.x08].
Definition frame3 : bytes := [Byte.x09; Byte.x0a; Byte.x0b; Byte.x0c].

(** [!startmeeting] in guild [guild] right after the bot came up, then the
    frames. *)
Definition recording (guild : Z) (frames : list bytes) : world :=
  deliver guild frames
    (snd (Main.start_meeting "0b5e0c9e-7d0c-4f5e-9a55-6f4d1c3b2a10" (member guild) None
            (initial_world now))).

End Scenario.

(** * Properties *)

(** ** Timestamps: formatting, then parsing *)

Lemma digit_val_digit d : 0 <= d <= 9 -> digit_val (digit d) = Some d.
Proof.
  intros H.
  assert (d = 0 \/ d = 1 \/ d = 2 \/ d = 3 \/ d = 4 \/ d = 5 \/ d = 6
          \/ d = 7 \/ d = 8 \/ d = 9) as Hd by lia.
  repeat (destruct Hd as [-> | Hd]; [reflexivity |]).
  subst; reflexivity.
Qed.

Lemma div10_digit n : 0 <= n < 100 -> 0 <= n / 10 <= 9.
Proof.
  intros H. split.
  - apply Z.div_pos; lia.
  - apply Z.lt_succ_r. apply Z.div_lt_upper_bound; lia.
Qed.

Lemma mod10_digit n : 0 <= n mod 10 <= 9.
Proof. pose proof (Z.mod_pos_bound n 10); lia. Qed.

Lemma parse_pad2 n acc rest :
  0 <= n < 100 ->
  parse_digits 2 acc (pad2 n +:+ rest) = Some (acc * 100 + n, rest).
Proof.
  intros H. unfold pad2.
  change (String ?a (String ?b EmptyString) +:+ rest) with (String a (String b rest)).
  cbn [parse_digits].
  rewrite (digit_val_digit _ (div10_digit n H)), (digit_val_digit _ (mod10_digit n)).
  f_equal. f_equal. pose proof (Z.div_mod n 10). lia.
Qed.

Lemma parse_four_digits n rest :
  0 <= n < 10000 ->
  parse_digits 4 0 (four_digits n +:+ rest) = Some (n, rest).
Proof.
  intros H. unfold four_digits, pad2.
  change (parse_digits 4 0 (String (digit (n / 100 / 10))
            (String (digit ((n / 100) mod 10))
               (String (digit (n mod 100 / 10))
                  (String (digit ((n mod 100) mod 10)) rest)))) = Some (n, rest)).
  assert (0 <= n / 100 < 100) as Hhi.
  { split; [apply Z.div_pos; lia | apply Z.div_lt_upper_bound; lia]. }
  assert (0 <= n mod 100 < 100) as Hlo by (apply Z.mod_pos_bound; lia).
  cbn [parse_digits].
  rewrite (digit_val_digit _ (div10_digit _ Hhi)), (digit_val_digit _ (mod10_digit _)),
          (digit_val_digit _ (div10_digit _ Hlo)), (digit_val_digit _ (mod10_digit _)).
  f_equal. f_equal.
  pose proof (Z.div_mod n 100). pose proof (Z.div_mod (n / 100) 10).
  pose proof (Z.div_mod (n mod 100) 10). lia.
Qed.

(** A year of four digits is written as its four digits. *)
Lemma fmt_year_four_digits y : 1000 <= y <= 9999 -> fmt_year y = four_digits y.
Proof.
  intros H.
  assert (forallb (fun y => String.eqb (fmt_year y) (four_digits y)) (seqZ 1000 9000) = true)
    as Hall by (vm_compute; reflexivity).
  rewrite forallb_forall in Hall. apply String.eqb_eq, Hall.
  apply list_elem_of_In, elem_of_seqZ. lia.
Qed.

Lemma expect_String c rest : expect c (String c rest) = Some rest.
Proof. unfold expect. by rewrite Ascii.eqb_refl. Qed.

Lemma valid_datetime_fields d :
  valid_datetime d = true ->
  1 <= year d <= 9999 /\ 1 <= month d <= 12 /\ 1 <= day d <= 31 /\
  0 <= hour d < 24 /\ 0 <= minute d < 60 /\ 0 <= second d < 60.
Proof.
  unfold valid_datetime. rewrite !andb_true_iff.
  intros [[[[[[[[[[[[[Hy1 Hy2] Hm1] Hm2] Hd1] Hd2] Hh1] Hh2] Hi1] Hi2] Hs1] Hs2] _] _].
  assert (days_in_month (year d) (month d) <= 31) as Hdim.
  { unfold days_in_month. repeat case_match; lia. }
  lia.
Qed.

Lemma valid_truncate_seconds d :
  valid_datetime d = true -> valid_datetime (truncate_seconds d) = true.
Proof.
  unfold valid_datetime, truncate_seconds. cbn [year month day hour minute second microsecond].
  rewrite !andb_true_iff.
  intros [[[[[[[[[[[[[Hy1 Hy2] Hm1] Hm2] Hd1] Hd2] Hh1] Hh2] Hi1] Hi2] Hs1] Hs2] _] _].
  repeat split; assumption || reflexivity.
Qed.

(** Parsing what [strftime] wrote gives the datetime back, less its
    microseconds. *)
Lemma strptime_strftime d :
  valid_datetime d = true ->
  1000 <= year d ->
  strptime_sql (strftime_sql d) = Some (truncate_seconds d).
Proof.
  intros Hv Hy4. pose proof (valid_truncate_seconds d Hv) as Ht.
  destruct (valid_datetime_fields d Hv) as (Hy & Hmo & Hd & Hh & Hmi & Hs).
  unfold strptime_sql, strftime_sql.
  rewrite fmt_year_four_digits by lia.
  rewrite parse_four_digits by lia. cbn [mbind option_bind].
  change ("-" +:+ ?r) with (String "-"%char r). rewrite expect_String. cbn [mbind option_bind].
  rewrite parse_pad2 by lia. cbn [mbind option_bind].
  change ("-" +:+ ?r) with (String "-"%char r). rewrite expect_String. cbn [mbind option_bind].
  rewrite parse_pad2 by lia. cbn [mbind option_bind].
  change (" " +:+ ?r) with (String " "%char r). rewrite expect_String. cbn [mbind option_bind].
  rewrite parse_pad2 by lia. cbn [mbind option_bind].
  change (":" +:+ ?r) with (String ":"%char r). rewrite expect_String. cbn [mbind option_bind].
  rewrite parse_pad2 by lia. cbn [mbind option_bind].
  change (":" +:+ ?r) with (String ":"%char r). rewrite expect_String. cbn [mbind option_bind].
  replace (pad2 (second d)) with (pad2 (second d) +:+ "")
    by (unfold pad2; reflexivity).
  rewrite parse_pad2 by lia. cbn [mbind option_bind].
  change (0 * 100 + month d) with (month d).
  change (0 * 100 + day d) with (day d).
  change (0 * 100 + hour d) with (hour d).
  change (0 * 100 + minute d) with (minute d).
  change (0 * 100 + second d) with (second d).
  fold (truncate_seconds d). by rewrite Ht.
Qed.

(** ** Storage: [save_meeting], then [get_meeting] *)

Ltac run_monad :=
  unfold bind, ret, raise, get, modify, when, try_except, send; cbn [fst snd].

Lemma text_affinity_str s : Database.text_affinity (PyStr s) = PyStr s.
Proof. reflexivity. Qed.

Lemma text_affinity_int z : Database.text_affinity (PyInt z) = PyStr (str_of_Z z).
Proof. reflexivity. Qed.

Lemma strptime_strftime_ok d w :
  valid_datetime d = true -> 1000 <= year d ->
  Database.strptime (strftime_sql d) w = (Ok (truncate_seconds d), w).
Proof. intros Hv Hy. unfold Database.strptime. by rewrite strptime_strftime. Qed.

(** [save_meeting] when the storage layer works and the three [NOT NULL]
    parameters are given. *)
Lemma save_meeting_spec E server_id channel_id meeting_name start_time end_time
    transcript notes w :
  sqlite_fault E = None ->
  Database.is_none server_id || Database.is_none channel_id
    || Database.is_none meeting_name = false ->
  let meeting_id := last_rowid (db w) + 1 in
  let r := mk_row (Database.text_affinity server_id) (Database.text_affinity channel_id)
                  (Database.text_affinity meeting_name)
                  (strftime_sql start_time) (strftime_sql end_time)
                  (Database.text_affinity transcript) (Database.text_affinity notes)
                  (strftime_sql (utc_now E (clock w))) in
  Database.save_meeting E server_id channel_id meeting_name start_time end_time
                        transcript notes w
  = (Ok meeting_id,
     log (Saved meeting_id)
       (set_db (fun d => mk_database (<[meeting_id := r]> (rows d)) meeting_id) w)).
Proof.
  intros HE Hnn meeting_id r.
  unfold Database.save_meeting, Database._execute, Database._execute_sync.
  rewrite HE. run_monad. by rewrite Hnn.
Qed.

Lemma save_meeting_fault E server_id channel_id meeting_name start_time end_time
    transcript notes w e :
  sqlite_fault E = Some e ->
  Database.save_meeting E server_id channel_id meeting_name start_time end_time
                        transcript notes w
  = (Raise e, w).
Proof.
  intros HE. unfold Database.save_meeting, Database._execute, Database._execute_sync.
  by rewrite HE.
Qed.

(** The row that [save_meeting] stored converts to a record with the saved
    texts, the identifiers as text, and the times cut to whole seconds. *)
Lemma meeting_of_saved_row E w meeting_id server_id channel_id
    meeting_name transcript notes start_time end_time :
  valid_datetime start_time = true -> 1000 <= year start_time ->
  valid_datetime end_time = true -> 1000 <= year end_time ->
  valid_datetime (utc_now E (clock w)) = true -> 1000 <= year (utc_now E (clock w)) ->
  forall w',
  Database.meeting_of_row meeting_id
    (mk_row (Database.text_affinity server_id) (Database.text_affinity channel_id)
            (PyStr meeting_name) (strftime_sql start_time) (strftime_sql end_time)
            (PyStr transcript) (PyStr notes) (strftime_sql (utc_now E (clock w)))) w'
  = (Ok (Database.mk_meeting meeting_id
           (Database.text_affinity server_id) (Database.text_affinity channel_id)
           (PyStr meeting_name)
           (truncate_seconds start_time) (truncate_seconds end_time)
           (PyStr transcript) (PyStr notes)
           (truncate_seconds (utc_now E (clock w)))), w').
Proof.
  intros Hst Hsty Het Hety Hck Hcky w'.
  unfold Database.meeting_of_row. run_monad.
  cbn [row_start_time row_end_time row_created_at row_server_id row_channel_id
       row_meeting_name row_transcript row_notes].
  rewrite (strptime_strftime_ok start_time) by assumption.
  rewrite (strptime_strftime_ok end_time) by assumption.
  rewrite (strptime_strftime_ok (utc_now E (clock w))) by assumption.
  reflexivity.
Qed.

(** [get_meeting] never returns: the statement fails, or [fetchone] is
    refused because it is called in the thread of the event loop on a
    cursor of the executor's thread. *)
Lemma get_meeting_raises E meeting_id w :
  Database.get_meeting E meeting_id w
  = (Raise (match sqlite_fault E with
            | Some e => e
            | None => ExternalError "sqlite3.ProgrammingError"
                        "SQLite objects created in a thread can only be used in that same thread."
            end), w).
Proof.
  unfold Database.get_meeting, Database._execute, Database._execute_sync.
  destruct (sqlite_fault E) as [e |]; reflexivity.
Qed.

(** C10, the code at a meeting just saved: [save_meeting] stores the row
    under identifier 1 and returns 1, the identifiers held as text and
    the times cut to whole seconds; [get_meeting(1)] then yields no record
    but raises [sqlite3.ProgrammingError], because its [fetchone] runs in
    the thread of the event loop on a cursor made in the executor's
    thread. *)
Theorem get_meeting_after_save_raises :
  let r := Database.save_meeting Scenario.engines (PyInt 1) (PyInt 9) (PyStr "standup")
             Scenario.now Scenario.later (PyStr "hello world")
             (PyStr Scenario.notes_text) (initial_world Scenario.later) in
  fst r = Ok 1 /\
  rows (db (snd r)) !! 1
    = Some (mk_row (PyStr "1") (PyStr "9") (PyStr "standup")
                   "2024-05-17 09:30:15" "2024-05-17 10:31:16"
                   (PyStr "hello world") (PyStr Scenario.notes_text)
                   "2024-05-17 10:31:16") /\
  Database.get_meeting Scenario.engines 1 (snd r)
    = (Raise (ExternalError "sqlite3.ProgrammingError"
                "SQLite objects created in a thread can only be used in that same thread."),
       snd r).
Proof.
  intros r. subst r.
  rewrite (save_meeting_spec Scenario.engines (PyInt 1) (PyInt 9) (PyStr "standup"))
    by reflexivity.
  cbv zeta. cbn [fst snd].
  split; [reflexivity |]. split; [vm_compute; reflexivity |].
  apply get_meeting_raises.
Qed.

(** ** The audio buffer: appending and finalizing *)

Lemma with_audio_buffer_same rd : AudioProcessor.with_audio_buffer (audio_buffer rd) rd = rd.
Proof. by destruct rd. Qed.

Lemma set_recordings_insert_same sid rd w :
  recordings w !! sid = Some rd -> set_recordings <[sid := rd]> w = w.
Proof.
  intros H. destruct w; unfold set_recordings; cbn in *. by rewrite insert_id.
Qed.

Lemma set_recordings_twice f g w :
  set_recordings f (set_recordings g w) = set_recordings (fun m => f (g m)) w.
Proof. reflexivity. Qed.

Lemma audio_sink_recording sid data w rd :
  recordings w !! sid = Some rd -> cancelled rd = false ->
  AudioProcessor.audio_sink sid data w
  = set_recordings <[sid := AudioProcessor.with_audio_buffer (audio_buffer rd ++ [data]) rd]> w.
Proof. intros Hrd Hc. unfold AudioProcessor.audio_sink. by rewrite Hrd, Hc. Qed.

(** A run of sink calls on a live entry appends the frames to its buffer,
    in the order of the calls, and touches nothing else. *)
Lemma deliver_recording sid frames : forall w rd,
  recordings w !! sid = Some rd -> cancelled rd = false ->
  deliver sid frames w
  = set_recordings <[sid := AudioProcessor.with_audio_buffer (audio_buffer rd ++ frames) rd]> w.
Proof.
  induction frames as [| data frames IH]; intros w rd Hrd Hc.
  - rewrite app_nil_r, with_audio_buffer_same. symmetry.
    by apply set_recordings_insert_same.
  - change (deliver sid (data :: frames) w)
      with (deliver sid frames (AudioProcessor.audio_sink sid data w)).
    rewrite (audio_sink_recording _ _ _ _ Hrd Hc).
    erewrite IH; [| cbn; apply lookup_insert_eq | done].
    rewrite set_recordings_twice. destruct w; unfold set_recordings; cbn.
    rewrite insert_insert_eq. by rewrite <- app_assoc.
Qed.

Lemma audio_sink_ended sid data w :
  recording_ended sid w -> AudioProcessor.audio_sink sid data w = w.
Proof.
  unfold recording_ended, AudioProcessor.audio_sink.
  destruct (recordings w !! sid) as [rd |]; [| done]. by intros ->.
Qed.

Lemma deliver_ended sid frames w :
  recording_ended sid w -> deliver sid frames w = w.
Proof.
  intros H. induction frames as [| data frames IH]; [done |].
  change (deliver sid (data :: frames) w)
    with (deliver sid frames (AudioProcessor.audio_sink sid data w)).
  by rewrite audio_sink_ended.
Qed.

(** [stop_recording] on a server that has an entry, case by case. *)
Lemma stop_recording_spec sid w rd :
  recordings w !! sid = Some rd ->
  AudioProcessor.stop_recording sid w =
    if cancelled rd then
      (Raise (ValueError ("Recording for server " +:+ str_of_Z sid +:+ " was cancelled")),
       set_recordings (delete sid) (silence rd w))
    else match audio_buffer rd with
         | [] => (Raise (ValueError "No audio data recorded"), silence rd w)
         | _ =>
             let path := AudioProcessor.recording_path sid (clock w) in
             (Ok path,
              set_recordings (delete sid)
                (log (Wrote path)
                   (set_files <[path := WavFile 2 2 AudioProcessor.sample_rate
                                                (concat (audio_buffer rd))]>
                      (silence rd w))))
         end.
Proof.
  intros Hrd.
  unfold AudioProcessor.stop_recording, silence, AudioProcessor._save_audio_file.
  run_monad. rewrite Hrd.
  destruct (is_listening (voice_client rd) w);
    destruct (auto_stop_task rd) as [t |]; try destruct (task_done t w);
    destruct (cancelled rd); destruct (audio_buffer rd); reflexivity.
Qed.

Lemma stop_recording_absent sid w :
  recordings w !! sid = None ->
  AudioProcessor.stop_recording sid w
  = (Raise (ValueError ("No active recording for server " +:+ str_of_Z sid)), w).
Proof. intros H. unfold AudioProcessor.stop_recording. run_monad. by rewrite H. Qed.

(** What [silence] leaves alone, and what it establishes. *)
Lemma silence_frame rd w :
  recordings (silence rd w) = recordings w /\
  active_recordings (silence rd w) = active_recordings w /\
  files (silence rd w) = files w /\
  db (silence rd w) = db w /\
  llm_loaded (silence rd w) = llm_loaded w /\
  clock (silence rd w) = clock w /\
  trace (silence rd w) = trace w.
Proof.
  unfold silence.
  destruct (is_listening (voice_client rd) w);
    destruct (auto_stop_task rd) as [t |]; try destruct (task_done t w);
    repeat split.
Qed.

Lemma silence_not_listening rd w : is_listening (voice_client rd) (silence rd w) = false.
Proof.
  unfold silence.
  destruct (is_listening (voice_client rd) w) eqn:Hl;
    destruct (auto_stop_task rd) as [t |]; try destruct (task_done t w);
    cbn [negb]; unfold is_listening, client in *; cbn;
    rewrite ?lookup_insert_eq; done.
Qed.

Lemma silence_task_done rd w t :
  auto_stop_task rd = Some t -> task_done t (silence rd w) = true.
Proof.
  intros Ht. unfold silence. rewrite Ht.
  destruct (task_done t w) eqn:Hd; cbn [negb].
  - destruct (is_listening (voice_client rd) w); exact Hd.
  - assert (task_done t (set_tasks (alter finish t) w) = true) as Hdone.
    { unfold task_done in *. cbn. rewrite list_lookup_alter_eq.
      destruct (tasks w !! t) as [tk |]; [reflexivity | discriminate]. }
    destruct (is_listening (voice_client rd) w); exact Hdone.
Qed.

Lemma start_recording_spec uuid4 vc sid cid w :
  AudioProcessor.start_recording uuid4 vc sid cid w
  = (Ok uuid4,
     set_recordings
       <[sid := mk_recording_data [] vc sid cid (clock w) false (Some (length (tasks w)))]>
       (set_tasks (fun ts => ts ++ [mk_task sid AudioProcessor.max_recording_seconds Sleeping])
          (set_voice_clients <[vc := mk_vc true (Some sid)]> w))).
Proof.
  unfold AudioProcessor.start_recording, listen, create_task. run_monad.
  f_equal. destruct w; unfold set_recordings, set_tasks, set_voice_clients; cbn.
  by rewrite alter_insert_eq.
Qed.

(** C6: finalizing a buffer that holds no frame raises
    [ValueError("No audio data recorded")] and leaves the world as it was:
    no file is written, whatever the path; and so does [stop_recording] on
    a fresh session that received no frame. *)
Theorem finalize_empty_buffer_fails (file_path uuid4 : string) (vc : nat) (sid cid : Z) (w : world) :
  AudioProcessor._save_audio_file [] file_path w
    = (Raise (ValueError "No audio data recorded"), w) /\
  fst (AudioProcessor.stop_recording sid
         (snd (AudioProcessor.start_recording uuid4 vc sid cid w)))
    = Raise (ValueError "No audio data recorded") /\
  files (snd (AudioProcessor.stop_recording sid
                (snd (AudioProcessor.start_recording uuid4 vc sid cid w))))
    = files w.
Proof.
  split; [reflexivity |].
  rewrite start_recording_spec. cbn [snd].
  erewrite stop_recording_spec by (cbn; apply lookup_insert_eq).
  cbn [cancelled audio_buffer fst snd]. split; [reflexivity |].
  by rewrite (proj1 (proj2 (proj2 (silence_frame _ _)))).
Qed.

(** Stopping a live entry after more frames came in writes the old buffer
    followed by the new frames. *)
Lemma stop_after_deliver sid frames w rd :
  recordings w !! sid = Some rd -> cancelled rd = false ->
  audio_buffer rd ++ frames <> [] ->
  let path := AudioProcessor.recording_path sid (clock w) in
  fst (AudioProcessor.stop_recording sid (deliver sid frames w)) = Ok path /\
  files (snd (AudioProcessor.stop_recording sid (deliver sid frames w))) !! path
    = Some (WavFile 2 2 16000 (concat (audio_buffer rd ++ frames))).
Proof.
  intros Hrd Hc Hne path.
  rewrite (deliver_recording _ _ _ _ Hrd Hc).
  erewrite stop_recording_spec by (cbn; apply lookup_insert_eq).
  cbn [cancelled audio_buffer AudioProcessor.with_audio_buffer].
  rewrite Hc. destruct (audio_buffer rd ++ frames) as [| f fs] eqn:Hb; [done |].
  cbn [fst snd clock set_recordings]. split; [reflexivity |].
  cbn [files set_recordings log set_files]. apply lookup_insert_eq.
Qed.

(** C7: whatever frames the sink of a fresh session is given, in whatever
    number, [stop_recording] writes a container whose payload is their
    concatenation in the order they came. *)
Theorem finalize_keeps_arrival_order
    (uuid4 : string) (vc : nat) (sid cid : Z) (frames : list bytes) (w : world) :
  frames <> [] ->
  let recorded :=
    deliver sid frames (snd (AudioProcessor.start_recording uuid4 vc sid cid w)) in
  let path := AudioProcessor.recording_path sid (clock w) in
  fst (AudioProcessor.stop_recording sid recorded) = Ok path /\
  files (snd (AudioProcessor.stop_recording sid recorded)) !! path
    = Some (WavFile 2 2 16000 (concat frames)).
Proof.
  intros Hne recorded path. subst recorded path.
  rewrite start_recording_spec. cbn [snd].
  match goal with
  | |- context [deliver sid frames ?w1] =>
      pose proof (stop_after_deliver sid frames w1
                    (mk_recording_data [] vc sid cid (clock w) false (Some (length (tasks w)))))
        as H
  end.
  cbn [audio_buffer cancelled app] in H.
  apply H; [cbn; apply lookup_insert_eq | reflexivity | exact Hne].
Qed.

Lemma finalize_keeps_arrival_order_witness :
  [Scenario.frame1; Scenario.frame2; Scenario.frame3] <> [] /\
  let recorded :=
    deliver 1 [Scenario.frame1; Scenario.frame2; Scenario.frame3]
      (snd (AudioProcessor.start_recording "session" 0%nat 1 9 (initial_world Scenario.now))) in
  let path := AudioProcessor.recording_path 1 (clock (initial_world Scenario.now)) in
  fst (AudioProcessor.stop_recording 1 recorded) = Ok path /\
  files (snd (AudioProcessor.stop_recording 1 recorded)) !! path
    = Some (WavFile 2 2 16000
              (concat [Scenario.frame1; Scenario.frame2; Scenario.frame3])).
Proof.
  split; [discriminate |].
  apply (finalize_keeps_arrival_order "session" 0%nat 1 9
           [Scenario.frame1; Scenario.frame2; Scenario.frame3]
           (initial_world Scenario.now)).
  discriminate.
Defined.

(** ** After the recording has ended *)

(** A stop that returns a path, or that finds the entry cancelled, removes
    the entry. *)
Lemma stop_recording_ends sid w :
  fst (AudioProcessor.stop_recording sid w) <> Raise (ValueError "No audio data recorded") ->
  recordings (snd (AudioProcessor.stop_recording sid w)) !! sid = None.
Proof.
  destruct (recordings w !! sid) as [rd |] eqn:Hrd.
  - rewrite (stop_recording_spec _ _ _ Hrd).
    destruct (cancelled rd); [intros _; cbn; apply lookup_delete_eq |].
    destruct (audio_buffer rd); [done |].
    intros _; cbn; apply lookup_delete_eq.
  - by rewrite (stop_recording_absent _ _ Hrd).
Qed.

(** What the auto-stop does to a recorded server: the entry is marked
    cancelled, the client stops listening, the entry is removed. *)
Lemma auto_stop_recording_spec sid secs w rd :
  recordings w !! sid = Some rd ->
  AudioProcessor._auto_stop_recording sid secs w
  = (Ok tt,
     set_recordings (delete sid)
       ((if is_listening (voice_client rd) w
         then set_voice_clients <[voice_client rd := mk_vc false None]>
         else fun w => w)
          (set_recordings (alter (AudioProcessor.with_cancelled true) sid) w))).
Proof.
  intros Hrd. unfold AudioProcessor._auto_stop_recording, stop_listening.
  run_monad. rewrite Hrd.
  by destruct (is_listening (voice_client rd) w).
Qed.

Lemma auto_stop_recording_absent sid secs w :
  recordings w !! sid = None ->
  AudioProcessor._auto_stop_recording sid secs w = (Ok tt, w).
Proof.
  intros Hrd. unfold AudioProcessor._auto_stop_recording. run_monad. by rewrite Hrd.
Qed.

Lemma auto_stop_ends sid secs w :
  recordings (snd (AudioProcessor._auto_stop_recording sid secs w)) !! sid = None.
Proof.
  destruct (recordings w !! sid) as [rd |] eqn:Hrd.
  - rewrite (auto_stop_recording_spec _ _ _ _ Hrd). cbn. apply lookup_delete_eq.
  - by rewrite (auto_stop_recording_absent _ _ _ Hrd).
Qed.

Lemma removed_is_ended sid w : recordings w !! sid = None -> recording_ended sid w.
Proof. unfold recording_ended. by intros ->. Qed.

(** Once the server has no entry in [recordings] or its entry is marked
    cancelled, every frame handed to its sink is dropped: the world stays
    as it is.  A later [stop_recording] then has nothing to finalize: it
    raises and writes no file. *)
Lemma frames_after_recording_are_dropped (sid : Z) (frames : list bytes) (w : world) :
  recording_ended sid w ->
  deliver sid frames w = w /\
  (exists e, fst (AudioProcessor.stop_recording sid (deliver sid frames w)) = Raise e) /\
  files (snd (AudioProcessor.stop_recording sid (deliver sid frames w))) = files w.
Proof.
  intros Hended. rewrite (deliver_ended _ _ _ Hended). split; [reflexivity |].
  unfold recording_ended in Hended.
  destruct (recordings w !! sid) as [rd |] eqn:Hrd.
  - rewrite (stop_recording_spec _ _ _ Hrd), Hended. cbn [fst snd]. split; [eauto |].
    cbn. apply silence_frame.
  - rewrite (stop_recording_absent _ _ Hrd). cbn [fst snd]. eauto.
Qed.

(** ** The auto-stop timer *)

Lemma is_listening_stopped vc w :
  is_listening vc (set_voice_clients <[vc := mk_vc false None]> w) = false.
Proof. unfold is_listening, client. cbn. by rewrite lookup_insert_eq. Qed.

Lemma timer_fires_sleeping t w tk :
  tasks w !! t = Some tk -> task_status_of tk = Sleeping ->
  timer_fires t w
  = snd (AudioProcessor._auto_stop_recording (task_server tk) (task_seconds tk)
           (set_tasks (alter finish t) w)).
Proof. intros Htk Hst. unfold timer_fires. by rewrite Htk, Hst. Qed.

(** C1, as the code has it: when the auto-stop timer of a recorded server
    fires, the session is discarded and not finalized.  The client stops
    listening, the entry leaves [recordings], and the task is done; no file
    is written, nothing is sent, no stage of the pipeline is called and the
    table of meetings is untouched.  A stop request that comes later finds
    no recording. *)
Theorem auto_stop_discards_session (t : nat) (w : world) (tk : task) (rd : recording_data) :
  tasks w !! t = Some tk ->
  task_status_of tk = Sleeping ->
  recordings w !! task_server tk = Some rd ->
  let w' := timer_fires t w in
  recordings w' !! task_server tk = None /\
  is_listening (voice_client rd) w' = false /\
  task_done t w' = true /\
  files w' = files w /\ db w' = db w /\ trace w' = trace w /\
  AudioProcessor.stop_recording (task_server tk) w'
    = (Raise (ValueError ("No active recording for server " +:+ str_of_Z (task_server tk))), w').
Proof.
  intros Htk Hst Hrd w'. subst w'.
  rewrite (timer_fires_sleeping _ _ _ Htk Hst).
  rewrite (auto_stop_recording_spec _ _ _ rd) by exact Hrd.
  cbn [snd].
  assert (forall w0, recordings (set_recordings (delete (task_server tk)) w0)
                     !! task_server tk = None) as Hgone.
  { intros w0. cbn. apply lookup_delete_eq. }
  split; [apply Hgone |].
  split.
  { change (is_listening (voice_client rd) (set_tasks (alter finish t) w))
      with (is_listening (voice_client rd) w).
    destruct (is_listening (voice_client rd) w) eqn:Hl.
    - apply is_listening_stopped.
    - exact Hl. }
  split.
  { unfold task_done. destruct (is_listening (voice_client rd) _); cbn;
      rewrite list_lookup_alter_eq, Htk; reflexivity. }
  split; [by destruct (is_listening (voice_client rd) _) |].
  split; [by destruct (is_listening (voice_client rd) _) |].
  split; [by destruct (is_listening (voice_client rd) _) |].
  apply stop_recording_absent, Hgone.
Qed.

Lemma auto_stop_discards_session_witness :
  let w := Scenario.recording 4 [Scenario.frame1; Scenario.frame2; Scenario.frame3] in
  let w' := timer_fires 0 w in
  tasks w !! 0%nat = Some (mk_task 4 3600 Sleeping) /\
  recordings w' !! 4 = None /\
  is_listening 0 w' = false /\
  task_done 0 w' = true /\
  files w' = files w /\ db w' = db w /\ trace w' = trace w /\
  AudioProcessor.stop_recording 4 w'
    = (Raise (ValueError ("No active recording for server " +:+ str_of_Z 4)), w').
Proof.
  split; [reflexivity |].
  apply (auto_stop_discards_session 0
           (Scenario.recording 4 [Scenario.frame1; Scenario.frame2; Scenario.frame3])
           (mk_task 4 3600 Sleeping)
           (mk_recording_data [Scenario.frame1; Scenario.frame2; Scenario.frame3]
              0%nat 4 9 Scenario.now false (Some 0%nat)));
    vm_compute; reflexivity.
Defined.

(** C1 as stated fails on the run of scenario D: three frames are recorded
    in guild 4 and the timer fires.  No container exists afterwards, no
    stage of the pipeline was called and no meeting was saved. *)
Lemma auto_stop_counterexample :
  let w := Scenario.recording 4 [Scenario.frame1; Scenario.frame2; Scenario.frame3] in
  let w' := timer_fires 0 w in
  (audio_buffer <$> recordings w !! 4
     = Some [Scenario.frame1; Scenario.frame2; Scenario.frame3]) /\
  recordings w' !! 4 = None /\
  files w' = ∅ /\
  filter (fun e => pipeline_event e = true) (trace w') = [] /\
  rows (db w') = ∅.
Proof.
  repeat split; vm_compute; reflexivity.
Qed.

(** ** The pipeline of [stop_meeting] *)

Ltac world_simpl :=
  cbn [recordings active_recordings voice_clients tasks files db llm_loaded clock trace
       set_recordings set_active_recordings set_voice_clients set_tasks set_files set_db
       set_llm_loaded set_clock log fst snd rows last_rowid].

(** Unless the model cannot be loaded, [generate_notes] returns a text,
    whatever the completion call did. *)
Lemma generate_notes_ok E transcript w :
  (llm_loaded w = true \/ llama_load E 1 = None \/ llama_load E 0 = None) ->
  NoteGenerator.generate_notes E transcript w
  = (Ok (NoteGenerator._process_transcript E transcript),
     log (Summarized transcript) (set_llm_loaded true w)).
Proof.
  intros H. unfold NoteGenerator.generate_notes, NoteGenerator._initialize_model. run_monad.
  destruct (llm_loaded w) eqn:Hl; cbn [negb].
  - destruct w; cbn in *; subst; reflexivity.
  - rewrite Hl. destruct H as [H | [H | H]]; [discriminate | by rewrite H |].
    destruct (llama_load E 1); by rewrite ?H.
Qed.

(** The run of the pipeline when no stage raises. *)
Lemma process_recording_ok E sid s path w f segments :
  files w !! path = Some f ->
  whisper E path (Some f) = Ok segments ->
  (llm_loaded w = true \/ llama_load E 1 = None \/ llama_load E 0 = None) ->
  sqlite_fault E = None ->
  let meeting_id := last_rowid (db w) + 1 in
  let transcript := Transcriber.full_transcript segments in
  exists w',
    Main.process_recording E sid s path w = (Ok tt, w') /\
    rows (db w') = <[meeting_id := saved_row E sid s transcript (clock w)]> (rows (db w)) /\
    (files w' = delete path (files w) \/
     files w' = delete ("notes_" +:+ str_of_Z meeting_id +:+ ".md") (delete path (files w))) /\
    recordings w' = recordings w /\ active_recordings w' = active_recordings w /\
    trace w' = trace w ++ [Sent TranscribingAudio; Transcribed path; Sent GeneratingNotes;
                           Summarized transcript; Saved meeting_id; Removed path]
                       ++ notes_delivery E s transcript meeting_id
                       ++ [Sent (RecordingProcessed meeting_id)].
Proof.
  intros Hf Hw Hl HE meeting_id transcript. subst transcript.
  unfold Main.process_recording, Transcriber.transcribe.
  unfold bind at 1. unfold send at 1. unfold modify at 1.
  unfold bind at 1. unfold bind at 1. unfold get at 1. unfold bind at 1. unfold modify at 1.
  world_simpl. rewrite Hf, Hw. unfold ret at 1.
  unfold bind at 1. unfold send at 1. unfold modify at 1.
  unfold bind at 1. rewrite generate_notes_ok by exact Hl.
  unfold bind at 1. unfold get at 1.
  unfold bind at 1. rewrite save_meeting_spec by (exact HE || reflexivity). cbv zeta.
  unfold bind at 1. unfold os_remove. unfold bind at 1. unfold get at 1.
  world_simpl. rewrite Hf.
  unfold bind at 1. unfold modify at 1. unfold modify at 1.
  unfold bind at 1. unfold notes_delivery, formatted_notes.
  destruct (String.length _ <=? 2000)%nat.
  - unfold send, modify. eexists; split; [reflexivity |]. world_simpl.
    repeat split; [by left | by rewrite <- !app_assoc].
  - unfold write_text, send, bind, modify, get. world_simpl.
    rewrite lookup_insert_eq. eexists; split; [reflexivity |]. world_simpl.
    repeat split; [right; by rewrite delete_insert_eq | by rewrite <- !app_assoc].
Qed.

(** [stop_meeting] on a live session whose buffer holds frames: the
    recording is stopped, the pipeline runs inside the [try], and the
    session leaves [active_recordings] whatever the pipeline did. *)
Lemma stop_meeting_live E ctx w s rd :
  active_recordings w !! Main.guild_id ctx = Some s ->
  recordings w !! Main.guild_id ctx = Some rd ->
  cancelled rd = false -> audio_buffer rd <> [] ->
  let sid := Main.guild_id ctx in
  let path := AudioProcessor.recording_path sid (clock w) in
  let w1 :=
    set_recordings (delete sid)
      (log (Wrote path)
         (set_files <[path := WavFile 2 2 16000 (concat (audio_buffer rd))]>
            (silence rd (log (Sent ProcessingRecording) w)))) in
  Main.stop_meeting E ctx w
  = (Ok tt,
     set_active_recordings (delete sid)
       (snd (try_except (Main.process_recording E sid s path)
                        (fun e => send (ErrorProcessing (str_of_exn e))) w1))).
Proof.
  intros Hs Hrd Hc Hb sid path w1. subst sid path w1.
  unfold Main.stop_meeting.
  unfold bind at 1. unfold get at 1. rewrite Hs.
  unfold bind at 1. unfold send at 1. unfold modify at 1.
  unfold bind at 1.
  rewrite (stop_recording_spec _ _ rd) by exact Hrd. rewrite Hc.
  destruct (audio_buffer rd) as [| f fs] eqn:Hbuf; [done |].
  cbv zeta. unfold bind at 1. unfold try_except.
  destruct (Main.process_recording E _ s _ _) as [[[] | e] w2]; reflexivity.
Qed.

(** [stop_meeting] when [stop_recording] raises: the exception leaves the
    handler before the [try] is entered, and the line that removes the
    session from [active_recordings] is not reached. *)
Lemma stop_meeting_stop_raises E ctx w s e :
  active_recordings w !! Main.guild_id ctx = Some s ->
  fst (AudioProcessor.stop_recording (Main.guild_id ctx) (log (Sent ProcessingRecording) w))
    = Raise e ->
  Main.stop_meeting E ctx w
  = (Raise e,
     snd (AudioProcessor.stop_recording (Main.guild_id ctx) (log (Sent ProcessingRecording) w))).
Proof.
  intros Hs He. unfold Main.stop_meeting.
  unfold bind at 1. unfold get at 1. rewrite Hs.
  unfold bind at 1. unfold send at 1. unfold modify at 1.
  unfold bind at 1.
  destruct (AudioProcessor.stop_recording _ _) as [[path | e'] w2]; cbn in *; congruence.
Qed.

(** *** A stop request on an empty buffer *)

Lemma stop_meeting_empty_buffer E ctx w s rd :
  active_recordings w !! Main.guild_id ctx = Some s ->
  recordings w !! Main.guild_id ctx = Some rd ->
  cancelled rd = false -> audio_buffer rd = [] ->
  Main.stop_meeting E ctx w
  = (Raise (ValueError "No audio data recorded"),
     silence rd (log (Sent ProcessingRecording) w)).
Proof.
  intros Hs Hrd Hc Hb.
  assert (AudioProcessor.stop_recording (Main.guild_id ctx) (log (Sent ProcessingRecording) w)
          = (Raise (ValueError "No audio data recorded"),
             silence rd (log (Sent ProcessingRecording) w))) as Hstop.
  { rewrite (stop_recording_spec _ _ rd) by exact Hrd. by rewrite Hc, Hb. }
  rewrite (stop_meeting_stop_raises E ctx w s (ValueError "No audio data recorded"));
    [by rewrite Hstop | exact Hs | by rewrite Hstop].
Qed.

(** C2, the code at scenario B: [!startmeeting] in guild 2, then
    [!stopmeeting] before any frame came in.  [stop_meeting] ends with
    [ValueError("No audio data recorded")] and no meeting is saved, but
    guild 2 keeps its entry in [recordings] and in [active_recordings], and
    the next [!startmeeting] in guild 2 is refused. *)
Theorem stop_with_no_frames_keeps_session (E : collaborators) :
  let w := Scenario.recording 2 [] in
  let r := Main.stop_meeting E (Scenario.member 2) w in
  fst r = Raise (ValueError "No audio data recorded") /\
  rows (db (snd r)) = ∅ /\
  (audio_buffer <$> recordings (snd r) !! 2) = Some [] /\
  (session_channel_id <$> active_recordings (snd r) !! 2) = Some 9 /\
  last (trace (snd (Main.start_meeting "another" (Scenario.member 2) None (snd r))))
    = Some (Sent AlreadyRecording).
Proof.
  intros w r. subst r.
  pose (s := mk_session "0b5e0c9e-7d0c-4f5e-9a55-6f4d1c3b2a10" "Meeting-20240517-093015"
                        Scenario.now 9 77).
  pose (rd := mk_recording_data [] 0%nat 2 9 Scenario.now false (Some 0%nat)).
  assert (active_recordings w !! 2 = Some s) as Hs by (vm_compute; reflexivity).
  assert (recordings w !! 2 = Some rd) as Hrd by (vm_compute; reflexivity).
  assert (cancelled rd = false) as Hc by reflexivity.
  assert (audio_buffer rd = []) as Hb by reflexivity.
  rewrite (stop_meeting_empty_buffer E (Scenario.member 2) w s rd Hs Hrd Hc Hb).
  cbn [fst snd]. split; [reflexivity |].
  destruct (silence_frame rd (log (Sent ProcessingRecording) w))
    as (Hr & Ha & _ & Hd & _ & _ & _).
  split; [by rewrite Hd |].
  split; [rewrite Hr; cbn [recordings log]; by rewrite Hrd |].
  split; [rewrite Ha; cbn [active_recordings log]; by rewrite Hs |].
  unfold Main.start_meeting. cbn [Scenario.member Main.ctx_voice_client Main.guild_id].
  unfold bind at 1. unfold get at 1. rewrite Ha. cbn [active_recordings log]. rewrite Hs.
  unfold send, modify. cbn [snd trace log]. apply last_snoc.
Qed.

(** C9, the code after a stop that failed: [!startmeeting] in guild 2,
    then [!stopmeeting] before any frame came in.  The stop request ended
    the recording as far as the transport goes (the client no longer
    listens, the auto-stop task is done) and raised on the empty buffer,
    but the entry of guild 2 stays in [recordings], not cancelled.  A frame
    handed to the sink afterwards is appended, and the next [stop_recording]
    finalizes it into a container. *)
Theorem late_frame_after_failed_stop_is_finalized (E : collaborators) :
  let w := Scenario.recording 2 [] in
  let stopped := snd (Main.stop_meeting E (Scenario.member 2) w) in
  let late := deliver 2 [Scenario.frame1] stopped in
  let r := AudioProcessor.stop_recording 2 late in
  fst (Main.stop_meeting E (Scenario.member 2) w)
    = Raise (ValueError "No audio data recorded") /\
  is_listening 0 stopped = false /\
  task_done 0 stopped = true /\
  (audio_buffer <$> recordings stopped !! 2) = Some [] /\
  (audio_buffer <$> recordings late !! 2) = Some [Scenario.frame1] /\
  fst r = Ok "temp_audio/recording_2_20240517_093015.wav" /\
  files (snd r) !! "temp_audio/recording_2_20240517_093015.wav"
    = Some (WavFile 2 2 16000 Scenario.frame1).
Proof.
  intros w stopped late r. subst r late stopped.
  pose (s := mk_session "0b5e0c9e-7d0c-4f5e-9a55-6f4d1c3b2a10" "Meeting-20240517-093015"
                        Scenario.now 9 77).
  pose (rd := mk_recording_data [] 0%nat 2 9 Scenario.now false (Some 0%nat)).
  rewrite (stop_meeting_empty_buffer E (Scenario.member 2) w s rd);
    [| vm_compute; reflexivity | vm_compute; reflexivity | reflexivity | reflexivity].
  cbn [fst snd]. split; [reflexivity |].
  repeat split; vm_compute; reflexivity.
Qed.

(** *** A failure while the notes are generated *)

Lemma process_transcript_failure E transcript text :
  failure_text (create_chat_completion E (NoteGenerator.prompt transcript)) = Some text ->
  NoteGenerator._process_transcript E transcript = text.
Proof.
  unfold failure_text, NoteGenerator._process_transcript.
  destruct (create_chat_completion E _) as [e | [[| c cs] |]]; congruence.
Qed.

Lemma is_error_reply_delivery E s transcript meeting_id :
  List.filter is_error_reply (notes_delivery E s transcript meeting_id) = [].
Proof.
  unfold notes_delivery. by destruct (_ <=? _)%nat.
Qed.

(** [generate_notes] when the model is not loaded and both attempts to load
    it raise: the exception of the second attempt leaves the function. *)
Lemma generate_notes_load_fails E transcript w e1 e0 :
  llm_loaded w = false -> llama_load E 1 = Some e1 -> llama_load E 0 = Some e0 ->
  NoteGenerator.generate_notes E transcript w = (Raise e0, w).
Proof.
  intros Hl H1 H0.
  unfold NoteGenerator.generate_notes, NoteGenerator._initialize_model. run_monad.
  rewrite Hl. cbn [negb]. by rewrite Hl, H1, H0.
Qed.

Lemma process_recording_load_fails E sid s path w f segments e1 e0 :
  files w !! path = Some f ->
  whisper E path (Some f) = Ok segments ->
  llm_loaded w = false -> llama_load E 1 = Some e1 -> llama_load E 0 = Some e0 ->
  Main.process_recording E sid s path w
  = (Raise e0,
     log (Sent GeneratingNotes) (log (Transcribed path) (log (Sent TranscribingAudio) w))).
Proof.
  intros Hf Hw Hl H1 H0.
  unfold Main.process_recording, Transcriber.transcribe.
  unfold bind at 1. unfold send at 1. unfold modify at 1.
  unfold bind at 1. unfold bind at 1. unfold get at 1. unfold bind at 1. unfold modify at 1.
  world_simpl. rewrite Hf, Hw. unfold ret at 1.
  unfold bind at 1. unfold send at 1. unfold modify at 1.
  unfold bind at 1.
  by rewrite (generate_notes_load_fails E _ _ e1 e0) by assumption.
Qed.

(** C4, as the code has it, for a run in which the recording was stopped
    and transcribed.  When the model cannot be loaded, [generate_notes]
    raises: the reply is [ErrorProcessing] with the text of the exception,
    which names no stage, and the table of meetings is untouched.  When the
    completion call raises or answers without a choice, [_process_transcript]
    returns an error text as the notes; if the storage layer does not fail,
    the meeting is saved with that text as its notes, the last reply is the
    one of a processed recording, and no error reply is sent. *)
Theorem failed_summary_is_saved_as_notes
    (E : collaborators) (ctx : Main.context) (w : world) (s : session)
    (rd : recording_data) (segments : list segment) :
  active_recordings w !! Main.guild_id ctx = Some s ->
  recordings w !! Main.guild_id ctx = Some rd ->
  cancelled rd = false ->
  audio_buffer rd <> [] ->
  whisper E (AudioProcessor.recording_path (Main.guild_id ctx) (clock w))
          (Some (WavFile 2 2 16000 (concat (audio_buffer rd)))) = Ok segments ->
  let transcript := Transcriber.full_transcript segments in
  let r := Main.stop_meeting E ctx w in
  let meeting_id := last_rowid (db w) + 1 in
  (forall e1 e0,
     llm_loaded w = false -> llama_load E 1 = Some e1 -> llama_load E 0 = Some e0 ->
     fst r = Ok tt /\
     last (trace (snd r)) = Some (Sent (ErrorProcessing (str_of_exn e0))) /\
     db (snd r) = db w) /\
  (forall text,
     (llm_loaded w = true \/ llama_load E 1 = None \/ llama_load E 0 = None) ->
     failure_text (create_chat_completion E (NoteGenerator.prompt transcript)) = Some text ->
     NoteGenerator._process_transcript E transcript = text /\
     (sqlite_fault E = None ->
      fst r = Ok tt /\
      (row_notes <$> rows (db (snd r)) !! meeting_id) = Some (PyStr text) /\
      last (trace (snd r)) = Some (Sent (RecordingProcessed meeting_id)) /\
      List.filter is_error_reply (trace (snd r)) = List.filter is_error_reply (trace w))).
Proof.
  intros Hs Hrd Hc Hb Hw transcript r meeting_id.
  subst transcript r meeting_id.
  rewrite (stop_meeting_live E ctx w s rd Hs Hrd Hc Hb). cbv zeta. cbn [fst snd].
  destruct (silence_frame rd (log (Sent ProcessingRecording) w))
    as (_ & _ & _ & Hd & Hll & Hck & Htr).
  split.
  - intros e1 e0 Hl H1 H0.
    match goal with
    | |- context [try_except (Main.process_recording E ?sid s ?path) ?h ?w1] =>
        pose proof (process_recording_load_fails E sid s path w1
                      (WavFile 2 2 16000 (concat (audio_buffer rd))) segments e1 e0) as Hrun
    end.
    unfold try_except. rewrite Hrun; clear Hrun.
    + split; [reflexivity |].
      split; [unfold send, modify; cbn [snd trace set_active_recordings log];
              apply last_snoc |].
      unfold send, modify. cbn [snd db set_active_recordings log set_recordings set_files].
      by rewrite Hd.
    + world_simpl. apply lookup_insert_eq.
    + exact Hw.
    + world_simpl. by rewrite Hll.
    + exact H1.
    + exact H0.
  - intros text Hl Hfail.
    pose proof (process_transcript_failure E _ text Hfail) as Hnotes.
    split; [exact Hnotes |]. intros HE.
    split; [reflexivity |].
    match goal with
    | |- context [try_except (Main.process_recording E ?sid s ?path) ?h ?w1] =>
        destruct (process_recording_ok E sid s path w1
                    (WavFile 2 2 16000 (concat (audio_buffer rd))) segments)
          as (w2 & Hrun & Hrows & _ & _ & _ & Htrace)
    end.
    { world_simpl. apply lookup_insert_eq. }
    { exact Hw. }
    { world_simpl. rewrite Hll. exact Hl. }
    { exact HE. }
    unfold try_except. rewrite Hrun. cbn [snd].
    cbn [db set_active_recordings trace]. revert Hrows Htrace. world_simpl.
    rewrite Hd, Hck, Htr. cbn [db clock trace log]. intros Hrows Htrace.
    split.
    { rewrite Hrows, lookup_insert_eq. unfold saved_row.
      cbn [row_notes fmap option_fmap option_map]. by rewrite Hnotes. }
    split.
    { rewrite Htrace, !app_assoc. apply last_snoc. }
    rewrite Htrace. rewrite !List.filter_app. cbn [List.filter is_error_reply].
    rewrite is_error_reply_delivery. by rewrite !app_nil_r.
Qed.

Lemma failed_summary_is_saved_as_notes_witness :
  let w := Scenario.recording 1 [Scenario.frame1; Scenario.frame2; Scenario.frame3] in
  let r := Main.stop_meeting Scenario.failing_llm (Scenario.member 1) w in
  failure_text (create_chat_completion Scenario.failing_llm
                  (NoteGenerator.prompt "[00:00] hello world"))
    = Some "Error generating meeting notes: llama_decode failed" /\
  sqlite_fault Scenario.failing_llm = None /\
  NoteGenerator._process_transcript Scenario.failing_llm "[00:00] hello world"
    = "Error generating meeting notes: llama_decode failed" /\
  fst r = Ok tt /\
  (row_notes <$> rows (db (snd r)) !! 1)
    = Some (PyStr "Error generating meeting notes: llama_decode failed") /\
  last (trace (snd r)) = Some (Sent (RecordingProcessed 1)) /\
  List.filter is_error_reply (trace (snd r)) = List.filter is_error_reply (trace w).
Proof.
  split; [reflexivity |]. split; [reflexivity |].
  destruct (failed_summary_is_saved_as_notes Scenario.failing_llm (Scenario.member 1)
              (Scenario.recording 1 [Scenario.frame1; Scenario.frame2; Scenario.frame3])
              (mk_session "0b5e0c9e-7d0c-4f5e-9a55-6f4d1c3b2a10" "Meeting-20240517-093015"
                          Scenario.now 9 77)
              (mk_recording_data [Scenario.frame1; Scenario.frame2; Scenario.frame3]
                                 0%nat 1 9 Scenario.now false (Some 0%nat))
              [mk_segment 0 "hello world"])
    as [_ Hfail];
    [vm_compute; reflexivity | vm_compute; reflexivity | reflexivity | discriminate
     | reflexivity |].
  destruct (Hfail "Error generating meeting notes: llama_decode failed")
    as [Hnotes Hsaved]; [right; left; reflexivity | reflexivity |].
  split; [exact Hnotes |]. exact (Hsaved eq_refl).
Defined.

(** C4 as stated fails on this run: three frames are recorded in guild 1,
    the transcription succeeds and the completion call raises.  The command
    ends normally, the meeting saved under identifier 1 has the error text
    as its notes, and the last reply announces a processed recording. *)
Lemma failed_summary_counterexample :
  let w := Scenario.recording 1 [Scenario.frame1; Scenario.frame2; Scenario.frame3] in
  let r := Main.stop_meeting Scenario.failing_llm (Scenario.member 1) w in
  fst r = Ok tt /\
  (row_notes <$> rows (db (snd r)) !! 1)
    = Some (PyStr "Error generating meeting notes: llama_decode failed") /\
  last (trace (snd r)) = Some (Sent (RecordingProcessed 1)) /\
  List.filter is_error_reply (trace (snd r)) = [].
Proof.
  repeat split; vm_compute; reflexivity.
Qed.

(** The two other ways in which the summarization fails, on the same
    recording: a response without a choice is saved as notes like the text
    of an exception; a model that cannot be loaded gives an error reply and
    no saved meeting. *)
Lemma failed_summary_other_modes :
  let w := Scenario.recording 1 [Scenario.frame1; Scenario.frame2; Scenario.frame3] in
  let silent := Main.stop_meeting Scenario.silent_llm (Scenario.member 1) w in
  let unloadable := Main.stop_meeting Scenario.unloadable_llm (Scenario.member 1) w in
  (row_notes <$> rows (db (snd silent)) !! 1)
    = Some (PyStr "Error: Failed to generate meeting notes.") /\
  last (trace (snd silent)) = Some (Sent (RecordingProcessed 1)) /\
  rows (db (snd unloadable)) = ∅ /\
  last (trace (snd unloadable))
    = Some (Sent (ErrorProcessing "Failed to load model from file")).
Proof.
  repeat split; vm_compute; reflexivity.
Qed.

(** *** The temporary audio file *)

Lemma count_removed_app path l1 l2 :
  count_removed path (l1 ++ l2) = (count_removed path l1 + count_removed path l2)%nat.
Proof. unfold count_removed. by rewrite List.filter_app, length_app. Qed.

(** [generate_notes] raises only when the model cannot be loaded, and then
    before anything else happened. *)
Lemma generate_notes_cases E transcript w :
  NoteGenerator.generate_notes E transcript w
    = (Ok (NoteGenerator._process_transcript E transcript),
       log (Summarized transcript) (set_llm_loaded true w)) \/
  exists e, NoteGenerator.generate_notes E transcript w = (Raise e, w).
Proof.
  destruct (llm_loaded w) eqn:Hl.
  - left. apply generate_notes_ok. by left.
  - destruct (llama_load E 1) as [e1 |] eqn:H1.
    + destruct (llama_load E 0) as [e0 |] eqn:H0.
      * right. exists e0.
        unfold NoteGenerator.generate_notes, NoteGenerator._initialize_model. run_monad.
        rewrite Hl. cbn [negb]. by rewrite Hl, H1, H0.
      * left. apply generate_notes_ok. by right; right.
    + left. apply generate_notes_ok. by right; left.
Qed.

(** [save_meeting] as [stop_meeting] calls it: it raises only on a fault of
    the SQLite layer. *)
Lemma save_meeting_cases E sid cid name st et tr notes w :
  (exists meeting_id w', Database.save_meeting E (PyInt sid) (PyInt cid) (PyStr name) st et tr notes w
      = (Ok meeting_id, w') /\ files w' = files w /\ sqlite_fault E = None)
  \/ exists e, Database.save_meeting E (PyInt sid) (PyInt cid) (PyStr name) st et tr notes w = (Raise e, w).
Proof.
  destruct (sqlite_fault E) as [e |] eqn:HE.
  - right. exists e. by apply save_meeting_fault.
  - left. rewrite save_meeting_spec by (exact HE || reflexivity). cbv zeta.
    by eexists _, _.
Qed.

(** Whatever stage makes the pipeline raise, the audio file is still there
    and [os.remove] was not called on it. *)
Lemma process_recording_raises_keeps_file E sid s path w f e w' :
  files w !! path = Some f ->
  Main.process_recording E sid s path w = (Raise e, w') ->
  files w' !! path = Some f /\
  count_removed path (trace w') = count_removed path (trace w).
Proof.
  intros Hf Hrun.
  unfold Main.process_recording, Transcriber.transcribe in Hrun.
  unfold bind at 1 in Hrun. unfold send at 1 in Hrun. unfold modify at 1 in Hrun.
  unfold bind at 1 in Hrun. unfold bind at 1 in Hrun. unfold get at 1 in Hrun.
  unfold bind at 1 in Hrun. unfold modify at 1 in Hrun.
  cbn [files log] in Hrun. rewrite Hf in Hrun.
  destruct (whisper E path (Some f)) as [segments | e1].
  2: { inversion Hrun; subst. cbn [files trace log]. split; [exact Hf |].
       rewrite !count_removed_app. cbn. lia. }
  unfold ret at 1 in Hrun.
  unfold bind at 1 in Hrun. unfold send at 1 in Hrun. unfold modify at 1 in Hrun.
  unfold bind at 1 in Hrun.
  match type of Hrun with
  | context [NoteGenerator.generate_notes E ?transcript ?w2] =>
      destruct (generate_notes_cases E transcript w2) as [Hg | [e2 Hg]]; rewrite Hg in Hrun
  end.
  2: { inversion Hrun; subst. cbn [files trace log]. split; [exact Hf |].
       rewrite !count_removed_app. cbn. lia. }
  unfold bind at 1 in Hrun. unfold get at 1 in Hrun. unfold bind at 1 in Hrun.
  match type of Hrun with
  | context [Database.save_meeting E ?a ?b ?c ?d ?e0 ?g ?h ?w3] =>
      destruct (save_meeting_cases E sid (session_channel_id s) (meeting_name s) d e0 g h w3)
        as [(meeting_id & w4 & Hsv & Hfiles & HE) | [e3 Hsv]]; rewrite Hsv in Hrun
  end.
  2: { inversion Hrun; subst. cbn [files trace log set_llm_loaded]. split; [exact Hf |].
       rewrite !count_removed_app. cbn. lia. }
  exfalso.
  unfold bind at 1 in Hrun. unfold os_remove in Hrun. unfold bind at 1 in Hrun.
  unfold get at 1 in Hrun. rewrite Hfiles in Hrun. cbn [files log set_llm_loaded] in Hrun.
  rewrite Hf in Hrun.
  unfold bind at 1 in Hrun. unfold modify at 1 in Hrun. unfold modify at 1 in Hrun.
  unfold bind at 1 in Hrun.
  destruct (_ <=? _)%nat.
  - unfold send, modify in Hrun. discriminate.
  - unfold write_text, send, bind, modify, get in Hrun. cbn [files set_files log] in Hrun.
    rewrite lookup_insert_eq in Hrun. discriminate.
Qed.

(** C5, the code at a failing stage: three frames are recorded in guild 1
    and the speech-to-text engine raises.  [stop_meeting] reports the error
    and ends normally, the session is removed from [active_recordings], but
    the audio file is still on disk and [os.remove] was never called on
    it. *)
Theorem failed_transcription_keeps_audio_file :
  let w := Scenario.recording 1 [Scenario.frame1; Scenario.frame2; Scenario.frame3] in
  let path := AudioProcessor.recording_path 1 Scenario.now in
  let r := Main.stop_meeting Scenario.failing_whisper (Scenario.member 1) w in
  fst r = Ok tt /\
  last (trace (snd r)) = Some (Sent (ErrorProcessing "could not decode audio")) /\
  active_recordings (snd r) !! 1 = None /\
  files (snd r) !! path
    = Some (WavFile 2 2 16000
              (concat [Scenario.frame1; Scenario.frame2; Scenario.frame3])) /\
  count_removed path (trace (snd r)) = 0%nat.
Proof.
  intros w path r.
  pose (s := mk_session "0b5e0c9e-7d0c-4f5e-9a55-6f4d1c3b2a10" "Meeting-20240517-093015"
                        Scenario.now 9 77).
  pose (rd := mk_recording_data [Scenario.frame1; Scenario.frame2; Scenario.frame3]
                                0%nat 1 9 Scenario.now false (Some 0%nat)).
  assert (Main.stop_meeting Scenario.failing_whisper (Scenario.member 1) w = r) as Hr
    by reflexivity.
  rewrite (stop_meeting_live Scenario.failing_whisper (Scenario.member 1) w s rd) in Hr;
    [| vm_compute; reflexivity | vm_compute; reflexivity | reflexivity | discriminate].
  cbv zeta in Hr. rewrite <- Hr. clear Hr r. cbn [fst snd].
  split; [reflexivity |].
  repeat split; vm_compute; reflexivity.
Qed.

(** ** The bot is disconnected from the voice channel *)

Lemma disconnect_live sid w s rd :
  active_recordings w !! sid = Some s ->
  recordings w !! sid = Some rd ->
  cancelled rd = false -> audio_buffer rd <> [] ->
  let path := AudioProcessor.recording_path sid (clock w) in
  Main.on_voice_state_update true (Some sid) None w
  = (Ok tt,
     set_active_recordings (delete sid)
       (set_recordings (delete sid)
          (log (Wrote path)
             (set_files <[path := WavFile 2 2 16000 (concat (audio_buffer rd))]>
                (silence rd w))))).
Proof.
  intros Hs Hrd Hc Hb path. subst path.
  unfold Main.on_voice_state_update.
  unfold bind at 1. unfold get at 1. rewrite Hs.
  unfold bind at 1. rewrite (stop_recording_spec _ _ rd) by exact Hrd. rewrite Hc.
  destruct (audio_buffer rd) as [| f fs]; [done |]. reflexivity.
Qed.

(** C3, as the code has it: when the bot is disconnected while a server
    records and its buffer holds frames, the handler stops the recording the
    way a manual stop does, through [stop_recording]: the call returns
    normally (the entry is not one marked cancelled), the client stops
    listening, the auto-stop task is done, the buffer is finalized into the
    container at the recording's path, and both tables lose the server.  No
    stage of the pipeline is called and the table of meetings is
    untouched. *)
Theorem disconnect_stops_recording (sid : Z) (w : world) (s : session) (rd : recording_data) :
  active_recordings w !! sid = Some s ->
  recordings w !! sid = Some rd ->
  cancelled rd = false ->
  audio_buffer rd <> [] ->
  let r := Main.on_voice_state_update true (Some sid) None w in
  fst r = Ok tt /\
  recordings (snd r) !! sid = None /\
  active_recordings (snd r) !! sid = None /\
  is_listening (voice_client rd) (snd r) = false /\
  (forall t, auto_stop_task rd = Some t -> task_done t (snd r) = true) /\
  files (snd r) !! AudioProcessor.recording_path sid (clock w)
    = Some (WavFile 2 2 16000 (concat (audio_buffer rd))) /\
  List.filter pipeline_event (trace (snd r)) = List.filter pipeline_event (trace w) /\
  db (snd r) = db w.
Proof.
  intros Hs Hrd Hc Hb r. subst r.
  rewrite (disconnect_live sid w s rd Hs Hrd Hc Hb). cbv zeta. cbn [fst snd].
  destruct (silence_frame rd w) as (_ & _ & _ & Hd & _ & _ & Htr).
  split; [reflexivity |].
  split; [cbn; apply lookup_delete_eq |].
  split; [cbn; apply lookup_delete_eq |].
  split; [exact (silence_not_listening rd w) |].
  split; [intros t Ht; exact (silence_task_done rd w t Ht) |].
  split; [cbn; apply lookup_insert_eq |].
  split; [| exact Hd].
  cbn [trace set_active_recordings set_recordings log set_files]. rewrite Htr.
  rewrite List.filter_app. cbn. apply app_nil_r.
Qed.

Lemma disconnect_stops_recording_witness :
  let w := Scenario.recording 3 [Scenario.frame1; Scenario.frame2] in
  let r := Main.on_voice_state_update true (Some 3) None w in
  (audio_buffer <$> recordings w !! 3) = Some [Scenario.frame1; Scenario.frame2] /\
  fst r = Ok tt /\
  recordings (snd r) !! 3 = None /\
  active_recordings (snd r) !! 3 = None /\
  is_listening 0 (snd r) = false /\
  (forall t, Some 0%nat = Some t -> task_done t (snd r) = true) /\
  files (snd r) !! AudioProcessor.recording_path 3 (clock w)
    = Some (WavFile 2 2 16000 (concat [Scenario.frame1; Scenario.frame2])) /\
  List.filter pipeline_event (trace (snd r)) = List.filter pipeline_event (trace w) /\
  db (snd r) = db w.
Proof.
  split; [vm_compute; reflexivity |].
  apply (disconnect_stops_recording 3
           (Scenario.recording 3 [Scenario.frame1; Scenario.frame2])
           (mk_session "0b5e0c9e-7d0c-4f5e-9a55-6f4d1c3b2a10" "Meeting-20240517-093015"
                       Scenario.now 9 77)
           (mk_recording_data [Scenario.frame1; Scenario.frame2]
                              0%nat 3 9 Scenario.now false (Some 0%nat)));
    [vm_compute; reflexivity | vm_compute; reflexivity | reflexivity | discriminate].
Defined.

(** C3 as stated fails on the run of scenario C: two frames are recorded in
    guild 3 and the bot is disconnected.  The handler returns normally, so
    [stop_recording] did not find the entry marked cancelled, and the frames
    are not discarded: they are in a container on disk. *)
Lemma disconnect_counterexample :
  let w := Scenario.recording 3 [Scenario.frame1; Scenario.frame2] in
  let r := Main.on_voice_state_update true (Some 3) None w in
  (cancelled <$> recordings w !! 3) = Some false /\
  fst r = Ok tt /\
  files (snd r) !! "temp_audio/recording_3_20240517_093015.wav"
    = Some (WavFile 2 2 16000 (Scenario.frame1 ++ Scenario.frame2)).
Proof.
  repeat split; vm_compute; reflexivity.
Qed.

(** ** The two tables of sessions *)

Section KeepsRegistries.
Context {A B : Type}.

Lemma keeps_ret (a : A) : keeps_registries (ret a).
Proof. by intros w. Qed.

Lemma keeps_raise (e : exn) : keeps_registries (@raise A e).
Proof. by intros w. Qed.

Lemma keeps_bind (c : M A) (k : A -> M B) :
  keeps_registries c -> (forall a, keeps_registries (k a)) -> keeps_registries (bind c k).
Proof.
  intros Hc Hk w. unfold bind. destruct (Hc w) as [H1 H2].
  destruct (c w) as [[a | e] w1]; cbn [snd] in *.
  - destruct (Hk a w1) as [H3 H4]. by rewrite H3, H4.
  - done.
Qed.

Lemma keeps_try_except (c : M A) (h : exn -> M A) :
  keeps_registries c -> (forall e, keeps_registries (h e)) -> keeps_registries (try_except c h).
Proof.
  intros Hc Hh w. unfold try_except. destruct (Hc w) as [H1 H2].
  destruct (c w) as [[a | e] w1]; cbn [snd] in *.
  - done.
  - destruct (Hh e w1) as [H3 H4]. by rewrite H3, H4.
Qed.
End KeepsRegistries.

Lemma keeps_get : keeps_registries get.
Proof. by intros w. Qed.

Lemma keeps_modify f :
  (forall w, recordings (f w) = recordings w /\ active_recordings (f w) = active_recordings w) ->
  keeps_registries (modify f).
Proof. intros H w. apply H. Qed.

Lemma keeps_send m : keeps_registries (send m).
Proof. by intros w. Qed.

Lemma keeps_when b c : keeps_registries c -> keeps_registries (when b c).
Proof. intros H. destruct b; [exact H | apply keeps_ret]. Qed.

Create HintDb keeps.
#[local] Hint Resolve keeps_ret keeps_raise keeps_get keeps_send keeps_when
  keeps_try_except : keeps.

Ltac keeps :=
  repeat first
    [ solve [ auto with keeps ]
    | apply keeps_bind; [| intros ? ]
    | apply keeps_when
    | apply keeps_try_except; [| intros ? ]
    | apply keeps_modify; intros ?; split; reflexivity
    | match goal with
      | |- keeps_registries (match ?x with _ => _ end) => destruct x
      | |- keeps_registries (if ?x then _ else _) => destruct x
      end ].

Lemma keeps_os_remove path : keeps_registries (os_remove path).
Proof. unfold os_remove. keeps. Qed.

Lemma keeps_transcribe E path : keeps_registries (Transcriber.transcribe E path).
Proof. unfold Transcriber.transcribe. keeps. Qed.

Lemma keeps_generate_notes E t : keeps_registries (NoteGenerator.generate_notes E t).
Proof. unfold NoteGenerator.generate_notes, NoteGenerator._initialize_model. keeps. Qed.

Lemma keeps_save_meeting E a b c d e f g : keeps_registries (Database.save_meeting E a b c d e f g).
Proof.
  unfold Database.save_meeting, Database._execute, Database._execute_sync. keeps.
Qed.

#[local] Hint Resolve keeps_os_remove keeps_transcribe keeps_generate_notes keeps_save_meeting : keeps.

Lemma keeps_process_recording E sid s path :
  keeps_registries (Main.process_recording E sid s path).
Proof. unfold Main.process_recording, write_text. keeps. Qed.

(** Each effect keeps the two tables in agreement. *)
Lemma registry_effect_agree w w' :
  registry_effect w w' -> registries_agree w -> registries_agree w'.
Proof.
  intros Heff Hagree k. specialize (Hagree k).
  destruct Heff as [Hr Ha | sid rd s Hr Ha | sid rd rd' Hin Hr Ha | sid Hr Ha | sid Hr Ha];
    rewrite Hr, Ha.
  - exact Hagree.
  - destruct (decide (sid = k)) as [-> | Hne].
    + rewrite !lookup_insert_eq. done.
    + by rewrite !lookup_insert_ne.
  - destruct (decide (sid = k)) as [-> | Hne].
    + intros _. apply Hagree. by rewrite Hin.
    + by rewrite lookup_insert_ne.
  - destruct (decide (sid = k)) as [-> | Hne].
    + by rewrite lookup_delete_eq.
    + by rewrite lookup_delete_ne.
  - destruct (decide (sid = k)) as [-> | Hne].
    + by rewrite lookup_delete_eq.
    + by rewrite !lookup_delete_ne.
Qed.

Lemma start_meeting_effect uuid4 ctx name w :
  registry_effect w (snd (Main.start_meeting uuid4 ctx name w)).
Proof.
  unfold Main.start_meeting.
  destruct (Main.ctx_voice_client ctx) as [vc |]; [| apply effect_none; reflexivity].
  unfold bind at 1. unfold get at 1.
  destruct (active_recordings w !! Main.guild_id ctx) as [s |]; [apply effect_none; reflexivity |].
  destruct (Main.author_voice ctx) as [cid |]; [| apply effect_none; reflexivity].
  unfold bind at 1. rewrite start_recording_spec.
  eapply effect_started; reflexivity.
Qed.

Lemma stop_recording_registry sid w :
  active_recordings (snd (AudioProcessor.stop_recording sid w)) = active_recordings w /\
  (recordings (snd (AudioProcessor.stop_recording sid w)) = recordings w \/
   recordings (snd (AudioProcessor.stop_recording sid w)) = delete sid (recordings w)) /\
  (forall path, fst (AudioProcessor.stop_recording sid w) = Ok path ->
                recordings (snd (AudioProcessor.stop_recording sid w))
                = delete sid (recordings w)).
Proof.
  destruct (recordings w !! sid) as [rd |] eqn:Hrd.
  - rewrite (stop_recording_spec _ _ _ Hrd).
    destruct (silence_frame rd w) as (Hr & Ha & _).
    destruct (cancelled rd); [| destruct (audio_buffer rd)]; cbv zeta; cbn [fst snd];
      cbn [recordings active_recordings set_recordings log set_files];
      rewrite ?Hr, ?Ha; (split; [reflexivity |]).
    + split; [by right | intros path; discriminate].
    + split; [by left | intros path; discriminate].
    + split; [by right | intros path _; reflexivity].
  - rewrite (stop_recording_absent _ _ Hrd). cbn [fst snd].
    split; [reflexivity |]. split; [by left | intros path; discriminate].
Qed.

Lemma stop_meeting_effect E ctx w :
  registry_effect w (snd (Main.stop_meeting E ctx w)).
Proof.
  unfold Main.stop_meeting.
  unfold bind at 1. unfold get at 1.
  destruct (active_recordings w !! Main.guild_id ctx) as [s |]; [| apply effect_none; reflexivity].
  unfold bind at 1. unfold send at 1. unfold modify at 1.
  unfold bind at 1.
  destruct (stop_recording_registry (Main.guild_id ctx) (log (Sent ProcessingRecording) w))
    as (Ha & Hr & Hok).
  destruct (AudioProcessor.stop_recording _ _) as [[path | e] w1]; cbn [fst snd] in *.
  - specialize (Hok path eq_refl).
    unfold bind at 1.
    destruct (keeps_try_except _ (fun e => send (ErrorProcessing (str_of_exn e)))
                (keeps_process_recording E (Main.guild_id ctx) s path)
                (fun e => keeps_send _) w1) as [Hr2 Ha2].
    destruct (try_except _ _ w1) as [[[] | e] w2]; cbn [snd] in *.
    + apply (effect_stopped _ _ (Main.guild_id ctx)); cbn; by rewrite ?Hr2, ?Ha2, ?Hok, ?Ha.
    + apply (effect_dropped _ _ (Main.guild_id ctx)); by rewrite ?Hr2, ?Ha2, ?Hok, ?Ha.
  - destruct Hr as [Hr | Hr].
    + apply effect_none; [by rewrite Hr | by rewrite Ha].
    + apply (effect_dropped _ _ (Main.guild_id ctx)); [by rewrite Hr | by rewrite Ha].
Qed.

Lemma voice_state_update_effect b before after w :
  registry_effect w (snd (Main.on_voice_state_update b before after w)).
Proof.
  unfold Main.on_voice_state_update.
  destruct b; [| apply effect_none; reflexivity].
  destruct before as [sid |]; [| apply effect_none; reflexivity].
  destruct after; [apply effect_none; reflexivity |].
  unfold bind at 1. unfold get at 1.
  destruct (active_recordings w !! sid) as [s |]; [| apply effect_none; reflexivity].
  unfold bind at 1.
  destruct (stop_recording_registry sid w) as (Ha & Hr & Hok).
  destruct (AudioProcessor.stop_recording sid w) as [[path | e] w1]; cbn [fst snd] in *.
  - specialize (Hok path eq_refl).
    apply (effect_stopped _ _ sid); cbn; by rewrite ?Hok, ?Ha.
  - destruct Hr as [Hr | Hr].
    + apply effect_none; [by rewrite Hr | by rewrite Ha].
    + apply (effect_dropped _ _ sid); [by rewrite Hr | by rewrite Ha].
Qed.

Lemma audio_sink_effect sid data w :
  registry_effect w (AudioProcessor.audio_sink sid data w).
Proof.
  unfold AudioProcessor.audio_sink.
  destruct (recordings w !! sid) as [rd |] eqn:Hrd; [| apply effect_none; reflexivity].
  destruct (cancelled rd); [apply effect_none; reflexivity |].
  by eapply effect_appended.
Qed.

Lemma frame_arrives_effect vc data w : registry_effect w (frame_arrives vc data w).
Proof.
  unfold frame_arrives. destruct (is_listening vc w); [| apply effect_none; reflexivity].
  destruct (sink (client vc w)); [apply audio_sink_effect | apply effect_none; reflexivity].
Qed.

Lemma timer_fires_effect t w : registry_effect w (timer_fires t w).
Proof.
  unfold timer_fires.
  destruct (tasks w !! t) as [tk |]; [| apply effect_none; reflexivity].
  destruct (task_status_of tk); [| apply effect_none; reflexivity].
  destruct (recordings w !! task_server tk) as [rd |] eqn:Hrd.
  - rewrite (auto_stop_recording_spec _ _ _ rd) by exact Hrd. cbn [snd].
    apply (effect_dropped _ _ (task_server tk)).
    + destruct (is_listening _ _); cbn; by rewrite delete_alter_eq.
    + by destruct (is_listening _ _).
  - rewrite auto_stop_recording_absent by exact Hrd. apply effect_none; reflexivity.
Qed.

Lemma step_effect E a w : registry_effect w (step E a w).
Proof.
  destruct a; cbn [step].
  - apply start_meeting_effect.
  - apply stop_meeting_effect.
  - apply audio_sink_effect.
  - apply frame_arrives_effect.
  - apply timer_fires_effect.
  - apply voice_state_update_effect.
  - apply effect_none; reflexivity.
Qed.

Lemma run_registries_agree E actions : forall w,
  registries_agree w -> registries_agree (run E actions w).
Proof.
  induction actions as [| a actions IH]; intros w Hw; [exact Hw |].
  apply IH. eapply registry_effect_agree; [apply step_effect | exact Hw].
Qed.

(** At most one session per server, and never a recording the bot does not
    know of: the invariant of every reachable state. *)
Lemma reachable_registries_agree E actions now :
  registries_agree (run E actions (initial_world now)).
Proof.
  apply run_registries_agree. intros k. cbn. by rewrite lookup_empty.
Qed.

Lemma start_meeting_no_bot uuid4 ctx name w :
  Main.ctx_voice_client ctx = None ->
  Main.start_meeting uuid4 ctx name w = (Ok tt, log (Sent NeedVoiceChannel) w).
Proof. intros H. unfold Main.start_meeting. by rewrite H. Qed.

Lemma start_meeting_live uuid4 ctx name w vc s :
  Main.ctx_voice_client ctx = Some vc ->
  active_recordings w !! Main.guild_id ctx = Some s ->
  Main.start_meeting uuid4 ctx name w = (Ok tt, log (Sent AlreadyRecording) w).
Proof.
  intros Hvc Hs. unfold Main.start_meeting. rewrite Hvc.
  unfold bind at 1. unfold get at 1. by rewrite Hs.
Qed.

Lemma start_meeting_fresh uuid4 ctx name w vc cid :
  Main.ctx_voice_client ctx = Some vc ->
  active_recordings w !! Main.guild_id ctx = None ->
  Main.author_voice ctx = Some cid ->
  let sid := Main.guild_id ctx in
  let label := Main.name_or_default name (clock w) in
  Main.start_meeting uuid4 ctx name w
  = (Ok tt,
     log (Sent StopHint)
       (log (Sent (StartedRecording label))
          (set_active_recordings
             <[sid := mk_session uuid4 label (clock w) cid (Main.author_id ctx)]>
             (set_recordings
                <[sid := mk_recording_data [] vc sid cid (clock w) false
                                           (Some (length (tasks w)))]>
                (set_tasks
                   (fun ts => ts ++ [mk_task sid AudioProcessor.max_recording_seconds Sleeping])
                   (set_voice_clients <[vc := mk_vc true (Some sid)]> w)))))).
Proof.
  intros Hvc Hs Hcid sid label. unfold Main.start_meeting. rewrite Hvc.
  unfold bind at 1. unfold get at 1. rewrite Hs, Hcid.
  unfold bind at 1. rewrite start_recording_spec. reflexivity.
Qed.

(** C8, as the code has it: in every state the bot can reach, a start
    request for a server that has a session changes neither table of
    sessions, nor the voice clients, nor the tasks, and is answered with
    [AlreadyRecording] when the bot is connected to a voice channel.  A
    start request for a server without a session finds no recording that it
    could replace and, when the bot is connected and the requester is in a
    voice channel, inserts one session for that server in both tables:
    empty buffer, not cancelled, the client listening, the auto-stop task
    armed. *)
Theorem start_meeting_one_session_per_server
    (E : collaborators) (actions : list action) (now : datetime)
    (uuid4 : string) (ctx : Main.context) (meeting_name : option string) :
  let w := run E actions (initial_world now) in
  let r := Main.start_meeting uuid4 ctx meeting_name w in
  let sid := Main.guild_id ctx in
  match active_recordings w !! sid with
  | Some _ =>
      fst r = Ok tt /\
      recordings (snd r) = recordings w /\
      active_recordings (snd r) = active_recordings w /\
      voice_clients (snd r) = voice_clients w /\
      tasks (snd r) = tasks w /\
      (Main.ctx_voice_client ctx <> None ->
       trace (snd r) = trace w ++ [Sent AlreadyRecording])
  | None =>
      recordings w !! sid = None /\
      forall vc cid,
        Main.ctx_voice_client ctx = Some vc -> Main.author_voice ctx = Some cid ->
        fst r = Ok tt /\
        recordings (snd r)
          = <[sid := mk_recording_data [] vc sid cid (clock w) false
                                       (Some (length (tasks w)))]> (recordings w) /\
        active_recordings (snd r)
          = <[sid := mk_session uuid4 (Main.name_or_default meeting_name (clock w))
                                (clock w) cid (Main.author_id ctx)]> (active_recordings w) /\
        is_listening vc (snd r) = true /\
        tasks (snd r) = tasks w ++ [mk_task sid 3600 Sleeping]
  end.
Proof.
  intros w r sid.
  pose proof (reachable_registries_agree E actions now sid) as Hagree.
  fold w in Hagree. subst r.
  destruct (active_recordings w !! sid) as [s |] eqn:Hs.
  - destruct (Main.ctx_voice_client ctx) as [vc |] eqn:Hvc.
    + rewrite (start_meeting_live uuid4 ctx meeting_name w vc s Hvc Hs).
      repeat split; intros; reflexivity.
    + rewrite (start_meeting_no_bot uuid4 ctx meeting_name w Hvc).
      repeat split; try reflexivity. intros H. by destruct H.
  - split.
    { destruct (recordings w !! sid) as [rd |]; [| reflexivity].
      exfalso. by apply Hagree. }
    intros vc cid Hvc Hcid.
    rewrite (start_meeting_fresh uuid4 ctx meeting_name w vc cid Hvc Hs Hcid).
    cbv zeta. cbn [fst snd].
    split; [reflexivity |]. split; [reflexivity |]. split; [reflexivity |].
    split; [| reflexivity].
    unfold is_listening, client. cbn. by rewrite lookup_insert_eq.
Qed.

(** C8 as stated fails where the bot has joined no voice channel: guild 5
    has no session, and the start request is answered with the hint to use
    [!join]; no session is inserted. *)
Lemma start_meeting_counterexample :
  let w := initial_world Scenario.now in
  let r := Main.start_meeting "0b5e0c9e-7d0c-4f5e-9a55-6f4d1c3b2a10"
             (Scenario.member_without_bot 5) None w in
  active_recordings w !! 5 = None /\
  fst r = Ok tt /\
  trace (snd r) = [Sent NeedVoiceChannel] /\
  recordings (snd r) !! 5 = None /\
  active_recordings (snd r) !! 5 = None.
Proof.
  repeat split; vm_compute; reflexivity.
Qed.

(** ** After a stop *)


(** ** Further properties of the session machinery *)










(** ** Every stop request on a live session is answered *)





(** ** What a step can do to the tables of sessions *)













(** ** A session without a recording *)








(** ** Recordings and their sessions *)



(** ** Frames of several servers *)


Lemma with_audio_buffer_twice b b' rd :
  AudioProcessor.with_audio_buffer b (AudioProcessor.with_audio_buffer b' rd)
  = AudioProcessor.with_audio_buffer b rd.
Proof. reflexivity. Qed.




(** ** The names of the sessions *)






(** ** Timers and the sessions that armed them *)

Section Preserves.
Context {X : Type} (f : world -> X).

Lemma preserves_ret {A} (a : A) : preserves f (ret a).
Proof. by intros w. Qed.

Lemma preserves_raise {A} (e : exn) : preserves f (@raise A e).
Proof. by intros w. Qed.

Lemma preserves_get : preserves f get.
Proof. by intros w. Qed.

Lemma preserves_bind {A B} (c : M A) (k : A -> M B) :
  preserves f c -> (forall a, preserves f (k a)) -> preserves f (bind c k).
Proof.
  intros Hc Hk w. unfold bind. specialize (Hc w).
  destruct (c w) as [[a | e] w1]; cbn [snd] in *; [by rewrite Hk | done].
Qed.

Lemma preserves_try_except {A} (c : M A) (h : exn -> M A) :
  preserves f c -> (forall e, preserves f (h e)) -> preserves f (try_except c h).
Proof.
  intros Hc Hh w. unfold try_except. specialize (Hc w).
  destruct (c w) as [[a | e] w1]; cbn [snd] in *; [done | by rewrite Hh].
Qed.

Lemma preserves_modify g : (forall w, f (g w) = f w) -> preserves f (modify g).
Proof. intros H w. apply H. Qed.

Lemma preserves_when b c : preserves f c -> preserves f (when b c).
Proof. intros H. destruct b; [exact H | apply preserves_ret]. Qed.
End Preserves.

Ltac preserves :=
  repeat first
    [ apply preserves_ret | apply preserves_raise | apply preserves_get
    | apply preserves_bind; [| intros ? ]
    | apply preserves_when
    | apply preserves_try_except; [| intros ? ]
    | apply preserves_modify; intros ?; reflexivity
    | match goal with
      | |- preserves _ (match ?x with _ => _ end) => destruct x
      | |- preserves _ (if ?x then _ else _) => destruct x
      end ].











(** ** Stored timestamps, and the model of the notes *)




(** ** A disconnect before any frame came in *)


